(** * virus: the build orchestration of the Vira package manager

    A shallow embedding of [src/source/main.go] (the sandboxed build) and of
    the parts of [src/cmd/main.go] it shares, with the properties the
    specification states about them.

    Layout: Go library functions on strings; the data model; the resolver;
    the world (host file system, trace of external actions, deferred calls)
    and the monad of Go statements with [os.Exit]; the repository's
    functions in source order; then the theorems. *)

From Stdlib Require Import ZArith String Ascii List Lia Bool.
From stdpp Require Import base option list strings gmap pretty.

Local Open Scope string_scope.
Local Open Scope Z_scope.

(** ** Go library functions on strings

    A Go [string] is a sequence of bytes, as is a Rocq [string]. *)

Module GoStrings.

(** [strings.HasPrefix(s, prefix)] *)
Definition HasPrefix (s prefix : string) : bool := String.prefix prefix s.

(** [s[n:]] for [n <= len(s)] *)
Fixpoint slice_from (n : nat) (s : string) : string :=
  match n, s with
  | O, _ => s
  | S n', String _ s' => slice_from n' s'
  | S _, EmptyString => EmptyString
  end.

(** [strings.Contains(s, substr)] *)
Fixpoint Contains (s substr : string) : bool :=
  HasPrefix s substr ||
  match s with
  | EmptyString => false
  | String _ s' => Contains s' substr
  end.

(** [strings.Replace(s, old, new, 1)]: the first occurrence of [old] is
    replaced; an empty [old] matches at the beginning. *)
Fixpoint Replace1 (s old new : string) : string :=
  if HasPrefix s old then new ++ slice_from (String.length old) s
  else match s with
       | EmptyString => EmptyString
       | String c s' => String c (Replace1 s' old new)
       end.

(** [strings.Split(s, sep)] for a one-byte separator: never empty. *)
Fixpoint Split (s : string) (sep : ascii) : list string :=
  match s with
  | EmptyString => [EmptyString]
  | String c s' =>
      if Ascii.eqb c sep then EmptyString :: Split s' sep
      else match Split s' sep with
           | [] => [String c EmptyString]
           | x :: xs => String c x :: xs
           end
  end.

(** [strings.Join(elems, sep)] *)
Definition Join (elems : list string) (sep : string) : string :=
  String.concat sep elems.

End GoStrings.

(** ** Data model *)

(** [type Version struct { Version string; URL string }] *)
Record Version := mkVersion {
  Version_Version : string;
  Version_URL : string
}.

(** [type Library struct { Name string; Versions []Version }] *)
Record Library := mkLibrary {
  Library_Name : string;
  Library_Versions : list Version
}.

(** [type LibraryIndex struct { Libraries []Library }] *)
Record LibraryIndex := mkLibraryIndex {
  Libraries : list Library
}.

(** [type Package struct { Name string; Version string }] *)
Record Package := mkPackage {
  Package_Name : string;
  Package_Version : string
}.

(** [type Config struct { Package Package; Dependencies map[string]string }].
    [Dependencies] lists the entries of the map in the order in which the
    [range] statement of the run at hand visits them; Go leaves that order
    unspecified, so every order is a possible run. *)
Record Config := mkConfig {
  Config_Package : Package;
  Config_Dependencies : list (string * string)
}.

(** ** Dependency resolver *)

(** [findLibrary]: the first library of the index with that name; a nil
    pointer is [None]. *)
Fixpoint findLibrary_loop (libs : list Library) (name : string) : option Library :=
  match libs with
  | [] => None
  | lib :: rest =>
      if String.eqb (Library_Name lib) name then Some lib
      else findLibrary_loop rest name
  end.

Definition findLibrary (index : LibraryIndex) (name : string) : option Library :=
  findLibrary_loop (Libraries index) name.

(** [for i := n - 1; i >= 0; i-- { if p(versions[i]) { return &versions[i] } };
    return nil], entered with [n = len(versions)]. The index is in range on
    every iteration ([scanDown_in_range] below), so the [None] branch of the
    lookup is never taken. *)
Fixpoint scanDown (p : Version -> bool) (versions : list Version) (n : nat)
  : option Version :=
  match n with
  | O => None
  | S i =>
      match versions !! i with
      | Some v => if p v then Some v else scanDown p versions i
      | None => None
      end
  end.

(** [resolveVersion]; the returned pointer into the slice is the element. *)
Definition resolveVersion (versions : list Version) (spec : string) : option Version :=
  if String.eqb spec "*" then
    if (0 <? length versions)%nat then versions !! (length versions - 1)%nat
    else None
  else if GoStrings.HasPrefix spec "^" then
    let prefix := GoStrings.slice_from 1 spec in
    scanDown (fun v => GoStrings.HasPrefix (Version_Version v) prefix)
             versions (length versions)
  else
    scanDown (fun v => String.eqb (Version_Version v) spec)
             versions (length versions).

(** ** Errors, library functions of the platform *)

(** A Go [error]: its message, and whether [os.IsNotExist] holds of it. *)
Inductive error :=
| ErrNotExist (msg : string)
| ErrOther (msg : string).

(** [err.Error()] *)
Definition error_Error (e : error) : string :=
  match e with ErrNotExist msg | ErrOther msg => msg end.

(** An [error] operand of [Println]; a nil error prints as [<nil>]. *)
Definition show_err (err : option error) : string :=
  match err with Some e => error_Error e | None => "<nil>" end.

(** [os.IsNotExist(err)] *)
Definition os_IsNotExist (err : option error) : bool :=
  match err with Some (ErrNotExist _) => true | _ => false end.

(** [fmt.Errorf] with the message already formatted *)
Definition fmt_Errorf (msg : string) : error := ErrOther msg.

(** What [fmt.Sscanf(message, "line %d, column %d", &line, &column)] has
    assigned when it returns: operands are assigned in order, and scanning
    stops at the first mismatch. *)
Inductive Scanned :=
| ScanNone
| ScanLine (line : Z)
| ScanBoth (line column : Z).

(** Functions of the Go runtime and standard library that the program calls
    and that depend on the platform, or whose definition is outside the
    repository. The program is verified for every implementation of them. *)
Class GoPlatform := {
  GOOS : string;
  filepath_Join : list string -> string;
  filepath_Base : string -> string;
  filepath_Ext : string -> string;
  filepath_Rel : string -> string -> string * option error;
  strings_ToLower : string -> string;
  Sscanf_line_column : string -> Scanned;
  toml_Unmarshal : string -> Config * option error;
  json_Unmarshal : string -> LibraryIndex * option error
}.

(** [fmt.Sprintf("%d", n)] *)
Definition Sprintf_d (n : Z) : string := pretty n.

(** ** The world outside the program *)

(** The host file system: which path names denote a file (with its bytes)
    or a directory. Parent/child structure, permissions and concurrent
    writers are not modelled; a call fails in the model only for a reason
    that is visible in this map. *)
Inductive Node :=
| File (data : string)
| Dir.

(** [pterm.DefaultSection], [pterm.Info], [pterm.Success], [pterm.Error],
    [pterm.Fatal] *)
Inductive Level := LSection | LInfo | LSuccess | LError | LFatal.

(** A [context.Context]: [context.Background()], or the connection that
    [bindings.NewConnection] returns. *)
Inductive Context :=
| ctxBackground
| ctxConnection (uri : string).

(** [specs.Mount] and the fields of [specgen.SpecGenerator] that are set *)
Record Mount := mkMount {
  Mount_Type : string;
  Mount_Source : string;
  Mount_Destination : string;
  Mount_Options : list string
}.

Record SpecGenerator := mkSpec {
  Spec_Image : string;
  Spec_Mounts : list Mount;
  Spec_WorkDir : string;
  Spec_Command : list string
}.

(** How one [execInContainer] ends: at [ExecCreate], at
    [ExecStartAndAttach], at [ExecInspect], or with the exit code of the
    process. [buf] is what the process wrote to stdout and stderr. *)
Inductive ExecOutcome :=
| ExecCreateFailed (e : error)
| ExecAttachFailed (buf : string) (e : error)
| ExecInspectFailed (buf : string) (e : error)
| ExecExited (buf : string) (code : Z).

(** What [http.Get] yields: an error, or a response whose body delivers
    [body] and then ends, with [rdErr] if the transfer was cut short. *)
Inductive HttpResult :=
| HttpError (e : error)
| HttpResponse (status : Z) (body : string) (rdErr : option error).

(** The actions of the program that the outside can observe. *)
Inductive Event :=
| EvPrint (lvl : Level) (args : list string)
| EvHttpGet (url : string)
| EvNewConnection (uri : string)
| EvPull (image : string)
| EvCreate (s : SpecGenerator) (id : string) (err : option error)
| EvStart (id : string) (err : option error)
| EvStop (id : string)
| EvRemove (id : string)
| EvExec (conn : Context) (id : string) (cmd : list string) (r : ExecOutcome)
| EvCommand (name : string) (args : list string).

(** A call registered with [defer] in [compileProject]. *)
Inductive Deferred :=
| DeferRemoveAll (path : string)
| DeferTeardown (conn : Context) (containerID : string).

(** [w_log] holds the events, most recent first; [w_defers] the pending
    deferred calls of [compileProject], most recent first. *)
Record World := mkWorld {
  w_fs : gmap string Node;
  w_log : list Event;
  w_defers : list Deferred
}.

(** One entry that [filepath.Walk] passes to its callback. *)
Record WalkEntry := mkWalkEntry {
  we_path : string;
  we_isDir : bool;
  we_err : option error
}.

(** The answers of the outside world; each may depend on everything that
    happened before. [env_exec] also gives the host file system after the
    command ran: the workspace is mounted read-write into the container. *)
Record Env := mkEnv {
  env_getenv : string -> string;
  env_getuid : Z;
  env_mkdirTemp : World -> string * option error;
  env_walk : World -> string -> list WalkEntry;
  env_http : World -> string -> HttpResult;
  env_newConnection : World -> string -> option error;
  env_pull : World -> string -> option error;
  env_create : World -> SpecGenerator -> string * option error;
  env_start : World -> string -> option error;
  env_exec : World -> Context -> string -> list string -> ExecOutcome * gmap string Node;
  env_command : World -> string -> list string -> string * option error
}.

Definition set_fs (fs : gmap string Node) (w : World) : World :=
  mkWorld fs (w_log w) (w_defers w).

Definition add_event (e : Event) (w : World) : World :=
  mkWorld (w_fs w) (e :: w_log w) (w_defers w).

Definition set_defers (ds : list Deferred) (w : World) : World :=
  mkWorld (w_fs w) (w_log w) ds.

(** ** Go statements: state passing with [os.Exit] *)

(** A computation returns a value, or ends the process with an exit code;
    [os.Exit] runs no deferred call. *)
Inductive Outcome (A : Type) :=
| Ret (a : A)
| Exit (code : Z).
Arguments Ret {A} a.
Arguments Exit {A} code.

Definition M (A : Type) : Type := World -> Outcome A * World.

Definition ret {A} (a : A) : M A := fun w => (Ret a, w).

Definition bind {A B} (m : M A) (k : A -> M B) : M B :=
  fun w =>
    match m w with
    | (Ret a, w') => k a w'
    | (Exit code, w') => (Exit code, w')
    end.

Definition os_Exit {A} (code : Z) : M A := fun w => (Exit code, w).

Declare Scope go_scope.
Delimit Scope go_scope with go.
Notation "'let*' x ':=' m 'in' k" := (bind m (fun x => k))
  (at level 10, x pattern, m at level 100, k at level 200) : go_scope.
Notation "m ';;' k" := (bind m (fun _ => k))
  (at level 100, k at level 200, right associativity) : go_scope.
Local Open Scope go_scope.

(** [if err != nil { ... }] *)
Definition if_err (err : option error) (body : error -> M unit) : M unit :=
  match err with Some e => body e | None => ret tt end.

Definition emit (e : Event) : M unit := fun w => (Ret tt, add_event e w).

(** [pterm.<lvl>.Println(args...)] *)
Definition Println (lvl : Level) (args : list string) : M unit :=
  emit (EvPrint lvl args).

(** ** Calls into the operating system and the container runtime *)

Section Program.

Context {platform : GoPlatform} (env : Env).

(** [os.Stat(path)]; only the error is used by the program. *)
Definition os_Stat (path : string) : M (option error) := fun w =>
  match w_fs w !! path with
  | Some _ => (Ret None, w)
  | None => (Ret (Some (ErrNotExist ("stat " ++ path ++ ": no such file or directory"))), w)
  end.

(** [os.ReadFile(path)] *)
Definition os_ReadFile (path : string) : M (string * option error) := fun w =>
  match w_fs w !! path with
  | Some (File data) => (Ret (data, None), w)
  | Some Dir => (Ret ("", Some (ErrOther ("read " ++ path ++ ": is a directory"))), w)
  | None => (Ret ("", Some (ErrNotExist ("open " ++ path ++ ": no such file or directory"))), w)
  end.

(** [os.WriteFile(path, data, 0644)] *)
Definition os_WriteFile (path data : string) : M (option error) := fun w =>
  match w_fs w !! path with
  | Some Dir => (Ret (Some (ErrOther ("open " ++ path ++ ": is a directory"))), w)
  | _ => (Ret None, set_fs (<[path := File data]> (w_fs w)) w)
  end.

(** [os.Mkdir(path, mode)] *)
Definition os_Mkdir (path : string) : M (option error) := fun w =>
  match w_fs w !! path with
  | Some _ => (Ret (Some (ErrOther ("mkdir " ++ path ++ ": file exists"))), w)
  | None => (Ret None, set_fs (<[path := Dir]> (w_fs w)) w)
  end.

(** [os.MkdirAll(path, 0755)] *)
Definition os_MkdirAll (path : string) : M (option error) := fun w =>
  match w_fs w !! path with
  | Some Dir => (Ret None, w)
  | Some (File _) => (Ret (Some (ErrOther ("mkdir " ++ path ++ ": not a directory"))), w)
  | None => (Ret None, set_fs (<[path := Dir]> (w_fs w)) w)
  end.

(** [os.MkdirTemp("", pattern)]: the system chooses the name. *)
Definition os_MkdirTemp (pattern : string) : M (string * option error) := fun w =>
  match env_mkdirTemp env w with
  | (name, None) => (Ret (name, None), set_fs (<[name := Dir]> (w_fs w)) w)
  | (name, Some e) => (Ret ("", Some e), w)
  end.

(** [os.RemoveAll(path)]: [path] and everything below it. *)
Definition below (path name : string) : bool :=
  String.eqb name path || GoStrings.HasPrefix name (path ++ "/").

Definition os_RemoveAll (path : string) : M unit := fun w =>
  (Ret tt, set_fs (filter (fun kv => Is_true (negb (below path (fst kv)))) (w_fs w)) w).

(** [os.Create(path)]: the file exists and is empty afterwards. The file
    system is a flat map, so the error for a missing parent directory is
    not represented: what is stated about a created file is stated for a
    path whose directory exists ([parent_present] below), or after
    [os.MkdirAll] of that directory. *)
Definition os_Create (path : string) : M (option error) := fun w =>
  match w_fs w !! path with
  | Some Dir => (Ret (Some (ErrOther ("open " ++ path ++ ": is a directory"))), w)
  | _ => (Ret None, set_fs (<[path := File ""]> (w_fs w)) w)
  end.

(** [io.Copy(io.MultiWriter(f, bar), body)] for the file [f] opened at
    [path]: the bytes the body delivers are appended to the file, and the
    error that ended the body, if any, is returned. The progress bar only
    renders to the terminal. *)
Definition io_Copy (path body : string) (rdErr : option error) : M (option error) := fun w =>
  match w_fs w !! path with
  | Some (File data) => (Ret rdErr, set_fs (<[path := File (data ++ body)]> (w_fs w)) w)
  | _ => (Ret rdErr, w)
  end.

(** [http.Get(url)] *)
Definition http_Get (url : string) : M HttpResult := fun w =>
  (Ret (env_http env w url), add_event (EvHttpGet url) w).

(** [bindings.NewConnection(ctx, uri)] *)
Definition bindings_NewConnection (uri : string) : M (Context * option error) := fun w =>
  match env_newConnection env w uri with
  | None => (Ret (ctxConnection uri, None), add_event (EvNewConnection uri) w)
  | Some e => (Ret (ctxBackground, Some e), add_event (EvNewConnection uri) w)
  end.

(** [images.Pull(conn, image, nil)] *)
Definition images_Pull (conn : Context) (image : string) : M (option error) := fun w =>
  (Ret (env_pull env w image), add_event (EvPull image) w).

(** [containers.CreateWithSpec(conn, s, nil)]: the id and the error *)
Definition containers_CreateWithSpec (conn : Context) (s : SpecGenerator)
  : M (string * option error) := fun w =>
  let '(id, err) := env_create env w s in
  (Ret (id, err), add_event (EvCreate s id err) w).

(** [containers.Start(conn, id, nil)] *)
Definition containers_Start (conn : Context) (id : string) : M (option error) := fun w =>
  let err := env_start env w id in
  (Ret err, add_event (EvStart id err) w).

(** [containers.Stop(conn, id, nil)], result dropped by the caller *)
Definition containers_Stop (conn : Context) (id : string) : M unit :=
  emit (EvStop id).

(** [containers.Remove(conn, id, nil)], result dropped by the caller *)
Definition containers_Remove (conn : Context) (id : string) : M unit :=
  emit (EvRemove id).

(** The three calls [ExecCreate], [ExecStartAndAttach], [ExecInspect] of
    one [execInContainer], answered together. *)
Definition containers_Exec (conn : Context) (id : string) (cmd : list string)
  : M ExecOutcome := fun w =>
  let '(r, fs') := env_exec env w conn id cmd in
  (Ret r, add_event (EvExec conn id cmd r) (set_fs fs' w)).

(** [exec.Command(name, args...).CombinedOutput()] on the host *)
Definition exec_CombinedOutput (name : string) (args : list string)
  : M (string * option error) := fun w =>
  (Ret (env_command env w name args), add_event (EvCommand name args) w).

(** [defer f(...)] *)
Definition defer (d : Deferred) : M unit := fun w =>
  (Ret tt, set_defers (d :: w_defers w) w).

Definition run_deferred (d : Deferred) : M unit :=
  match d with
  | DeferRemoveAll path => os_RemoveAll path
  | DeferTeardown conn containerID =>
      containers_Stop conn containerID ;;
      containers_Remove conn containerID
  end.

Fixpoint run_all_deferred (ds : list Deferred) : M unit :=
  match ds with
  | [] => ret tt
  | d :: rest => run_deferred d ;; run_all_deferred rest
  end.

(** A function body with [defer] statements: when the body returns, the
    deferred calls run, last registered first; when it ends in [os.Exit],
    the process terminates at once and they do not run. *)
Definition with_defers {A} (body : M A) : M A := fun w =>
  match body (set_defers [] w) with
  | (Ret a, w') =>
      match run_all_deferred (w_defers w') (set_defers [] w') with
      | (Ret _, w'') => (Ret a, set_defers (w_defers w) w'')
      | (Exit code, w'') => (Exit code, w'')
      end
  | (Exit code, w') => (Exit code, w')
  end.

(** ** The repository's functions ([src/source/main.go]) *)

Definition indexURL : string :=
  "https://raw.githubusercontent.com/vira-language/vira/main/repository/virus.json".
Definition depsDir : string := ".virus_deps".
Definition projectTOML : string := "Project.toml".
Definition wolfiImage : string := "cgr.dev/chainguard/wolfi-base:latest".

(** [func init()]: the value it leaves in the global [binPath]. *)
Definition init : M string :=
  let osName := GOOS in
  if String.eqb osName "linux" then ret "/usr/lib/vira-lang/bin"
  else if String.eqb osName "windows" then
    let programFiles := env_getenv env "ProgramFiles" in
    let programFiles :=
      if String.eqb programFiles "" then "C:\Program Files" else programFiles in
    ret (filepath_Join [programFiles; "ViraLang"; "bin"])
  else
    Println LFatal ["Unsupported OS"] ;;
    os_Exit 1.

(** [handleError]; [binPath] is the global variable. *)
Definition handleError (binPath sourceFile errorMsg : string) : M unit :=
  Println LError ["Error occurred. Running diagnostic..."] ;;
  let lines := GoStrings.Split errorMsg "010" in
  let '(message, line, column) :=
    match lines with
    | message :: _ =>
        if GoStrings.Contains message "line" then
          match Sscanf_line_column message with
          | ScanNone => (message, 1, 1)
          | ScanLine l => (message, l, 1)
          | ScanBoth l c => (message, l, c)
          end
        else (message, 1, 1)
    | [] => ("", 1, 1)
    end in
  let diagnostic := filepath_Join [binPath; "diagnostic"] in
  let diagnostic :=
    if String.eqb GOOS "windows" then diagnostic ++ ".exe" else diagnostic in
  let* (out, err) :=
    exec_CombinedOutput diagnostic
      ["--source"; sourceFile; "--message"; message;
       "--line"; Sprintf_d line; "--column"; Sprintf_d column] in
  match err with
  | Some _ => Println LError [out]
  | None => Println LInfo [out]
  end.

(** [downloadWithProgress]; the same text is in [src/cmd/main.go]. The
    deferred [resp.Body.Close()] and [f.Close()] change nothing that is
    modelled. *)
Definition downloadWithProgress (url target : string) : M (option error) :=
  let* resp := http_Get url in
  match resp with
  | HttpError e => ret (Some e)
  | HttpResponse _ body rdErr =>
      let* err := os_Create target in
      match err with
      | Some e => ret (Some e)
      | None => io_Copy target body rdErr
      end
  end.

(** [downloadIndex] *)
Definition downloadIndex : M (LibraryIndex * option error) :=
  let index := mkLibraryIndex [] in
  let* resp := http_Get indexURL in
  match resp with
  | HttpError e => ret (index, Some e)
  | HttpResponse _ data rdErr =>
      match rdErr with
      | Some e => ret (index, Some e)
      | None => ret (json_Unmarshal data)
      end
  end.

(** [findProjectFile] *)
Definition findProjectFile : M string :=
  let* err := os_Stat projectTOML in
  match err with
  | None => ret projectTOML
  | Some _ => ret ""
  end.

(** [loadConfig] *)
Definition loadConfig : M (Config * option error) :=
  let config := mkConfig (mkPackage "" "") [] in
  let* projectFile := findProjectFile in
  if String.eqb projectFile "" then
    ret (config, Some (fmt_Errorf "no project file found"))
  else
    let* (data, err) := os_ReadFile projectFile in
    match err with
    | Some e => ret (config, Some e)
    | None => ret (toml_Unmarshal data)
    end.

(** [copyFile] *)
Definition copyFile (src dst : string) : M (option error) :=
  let* (data, err) := os_ReadFile src in
  match err with
  | Some e => ret (Some e)
  | None => os_WriteFile dst data
  end.

(** [filepath.Walk(root, fn)]: [fn] is called on each entry in turn until
    it returns an error. *)
Fixpoint walk_entries (entries : list WalkEntry) (fn : WalkEntry -> M (option error))
  : M (option error) :=
  match entries with
  | [] => ret None
  | entry :: rest =>
      let* err := fn entry in
      match err with
      | Some e => ret (Some e)
      | None => walk_entries rest fn
      end
  end.

Definition filepath_Walk (root : string) (fn : WalkEntry -> M (option error))
  : M (option error) := fun w =>
  walk_entries (env_walk env w root) fn w.

(** [copyDir] *)
Definition copyDir (srcDir dstDir : string) : M (option error) :=
  filepath_Walk srcDir (fun entry =>
    match we_err entry with
    | Some e => ret (Some e)
    | None =>
        let '(relPath, err) := filepath_Rel srcDir (we_path entry) in
        match err with
        | Some e => ret (Some e)
        | None =>
            let dstPath := filepath_Join [dstDir; relPath] in
            if we_isDir entry then os_Mkdir dstPath
            else copyFile (we_path entry) dstPath
        end
    end).

(** [execInContainer] *)
Definition execInContainer (conn : Context) (containerID : string) (cmd : list string)
  : M (string * Z * option error) :=
  let* r := containers_Exec conn containerID cmd in
  match r with
  | ExecCreateFailed e => ret ("", -1, Some e)
  | ExecAttachFailed buf e => ret (buf, -1, Some e)
  | ExecInspectFailed buf e => ret (buf, -1, Some e)
  | ExecExited buf code => ret (buf, code, None)
  end.

(** [err != nil || exit != 0] *)
Definition failed (exit : Z) (err : option error) : bool :=
  match err with
  | Some _ => true
  | None => negb (exit =? 0)
  end.

(** [compileSourceInContainer] *)
Definition compileSourceInContainer (binPath : string) (conn : Context)
    (containerID input output : string) (includeFlags : list string)
    (ext tempDir : string) : M (option error) :=
  Println LSection ["Compiling source:"; input] ;;
  if String.eqb ext ".vira" then
    let preOut := input ++ ".pre" in
    let cmdPre := (("preprocessor" :: includeFlags) ++ [input; preOut])%list in
    let* (out, exit, err) := execInContainer conn containerID cmdPre in
    if failed exit err then
      handleError binPath (GoStrings.Replace1 input "/work" tempDir) out ;;
      ret (Some (fmt_Errorf ("preprocess failed: " ++ out)))
    else
      Println LSuccess ["Preprocessing done"] ;;
      let cmdPlsa := ["plsa"; preOut] in
      let* (out, exit, err) := execInContainer conn containerID cmdPlsa in
      if failed exit err then
        handleError binPath (GoStrings.Replace1 preOut "/work" tempDir) out ;;
        ret (Some (fmt_Errorf ("plsa failed: " ++ out)))
      else
        Println LSuccess ["PLSA done"] ;;
        let cmdComp := ["compiler"; preOut; output] in
        let* (out, exit, err) := execInContainer conn containerID cmdComp in
        if failed exit err then
          handleError binPath (GoStrings.Replace1 preOut "/work" tempDir) out ;;
          ret (Some (fmt_Errorf ("compile failed: " ++ out)))
        else
          Println LSuccess ["Compilation done"] ;;
          ret None
  else if String.eqb ext ".c" then
    let cmd := (("gcc" :: "-c" :: includeFlags) ++ [input; "-o"; output])%list in
    let* (out, exit, err) := execInContainer conn containerID cmd in
    if failed exit err then
      handleError binPath (GoStrings.Replace1 input "/work" tempDir) out ;;
      ret (Some (fmt_Errorf ("gcc failed: " ++ out)))
    else
      Println LSuccess ["GCC compilation done"] ;;
      ret None
  else if String.eqb ext ".cpp" then
    let cmd := (("g++" :: "-c" :: includeFlags) ++ [input; "-o"; output])%list in
    let* (out, exit, err) := execInContainer conn containerID cmd in
    if failed exit err then
      handleError binPath (GoStrings.Replace1 input "/work" tempDir) out ;;
      ret (Some (fmt_Errorf ("g++ failed: " ++ out)))
    else
      Println LSuccess ["G++ compilation done"] ;;
      ret None
  else ret None.

(** [compileProject], lines 259-272: the artifact of one resolved
    dependency is made present below [depsDirTemp]. The old build in
    [src/cmd/main.go] (lines 438-453) has the same statements with the
    persistent [depsDir] as the root. Returns [depPath], [fileName],
    [targetFile]. *)
Definition compileProject_ensure (depsDirTemp name : string) (version : Version)
  : M (string * string * string) :=
  let depPath := filepath_Join [depsDirTemp; name; Version_Version version] in
  let* err := os_MkdirAll depPath in
  if_err err (fun e =>
    Println LError ["Failed to create dep path:"; error_Error e] ;;
    os_Exit 1) ;;
  let fileName := filepath_Base (Version_URL version) in
  let targetFile := filepath_Join [depPath; fileName] in
  let* err := os_Stat targetFile in
  (if os_IsNotExist err then
     Println LInfo ["Downloading"; name; Version_Version version] ;;
     let* err := downloadWithProgress (Version_URL version) targetFile in
     if_err err (fun e =>
       Println LError ["Failed to download:"; error_Error e] ;;
       os_Exit 1)
   else ret tt) ;;
  ret (depPath, fileName, targetFile).

(** [compileProject], lines 248-283: the body of the loop over
    [config.Dependencies], on the loop-carried variables [depPaths] and
    [objectFilesContainer]. *)
Definition compileProject_dependency (binPath : string) (ctx : Context)
    (containerID tempDir depsDirTemp : string) (index : LibraryIndex)
    (name versionSpec : string) (vars : list string * list string)
  : M (list string * list string) :=
  let '(depPaths, objectFilesContainer) := vars in
  match findLibrary index name with
  | None =>
      Println LError ["Library not found:"; name] ;;
      os_Exit 1
  | Some lib =>
      match resolveVersion (Library_Versions lib) versionSpec with
      | None =>
          Println LError ["No matching version for"; name; versionSpec] ;;
          os_Exit 1
      | Some version =>
          let* (depPath, fileName, targetFile) :=
            compileProject_ensure depsDirTemp name version in
          let depPaths := (depPaths ++ [depPath])%list in
          let ext := strings_ToLower (filepath_Ext fileName) in
          let containerInput := GoStrings.Replace1 targetFile tempDir "/work" in
          let containerO := GoStrings.Replace1 depPath tempDir "/work" +:+ "/lib.o" in
          if String.eqb ext ".vira" || String.eqb ext ".c" || String.eqb ext ".cpp" then
            let* err :=
              compileSourceInContainer binPath ctx containerID containerInput
                containerO [] ext tempDir in
            if_err err (fun _ => os_Exit 1) ;;
            ret (depPaths, (objectFilesContainer ++ [containerO])%list)
          else ret (depPaths, objectFilesContainer)
      end
  end.

(** [for name, versionSpec := range config.Dependencies { ... }] *)
Fixpoint compileProject_dependencies (binPath : string) (ctx : Context)
    (containerID tempDir depsDirTemp : string) (index : LibraryIndex)
    (deps : list (string * string)) (vars : list string * list string)
  : M (list string * list string) :=
  match deps with
  | [] => ret vars
  | (name, versionSpec) :: rest =>
      let* vars' :=
        compileProject_dependency binPath ctx containerID tempDir depsDirTemp
          index name versionSpec vars in
      compileProject_dependencies binPath ctx containerID tempDir depsDirTemp
        index rest vars'
  end.

(** [compileProject], lines 238-318: what runs once the container is
    started and its teardown is deferred. As in the source, the units are
    compiled with [ctx] (the background context) as the first argument of
    [compileSourceInContainer], while [apk] and the link use [conn]. *)
Definition compileProject_inSandbox (binPath : string) (ctx conn : Context)
    (containerID tempDir depsDirTemp : string) (config : Config)
    (index : LibraryIndex) : M unit :=
  let* (out, exit, err) := execInContainer conn containerID ["apk"; "update"] in
  (if failed exit err then
     Println LError ["apk update failed:"; out; show_err err] ;;
     os_Exit 1
   else ret tt) ;;
  let* (out, exit, err) :=
    execInContainer conn containerID
      ["apk"; "add"; "--no-cache"; "build-base"; "gcc"; "g++"] in
  (if failed exit err then
     Println LError ["apk add failed:"; out; show_err err] ;;
     os_Exit 1
   else ret tt) ;;
  let* (depPaths, objectFilesContainer) :=
    compileProject_dependencies binPath ctx containerID tempDir depsDirTemp
      index (Config_Dependencies config) ([], []) in
  let containerInput := "/work/src/main.vira" in
  let containerMainO := "/work/main.o" in
  let includeFlagsContainer :=
    map (fun depPath => "-I" +:+ GoStrings.Replace1 depPath tempDir "/work") depPaths in
  let* err :=
    compileSourceInContainer binPath ctx containerID containerInput
      containerMainO includeFlagsContainer ".vira" tempDir in
  if_err err (fun _ => os_Exit 1) ;;
  let objectFilesContainer := (objectFilesContainer ++ [containerMainO])%list in
  let outputExeContainer := "/work/bin/" +:+ Package_Name (Config_Package config) in
  let cmdLink := ("gcc" :: objectFilesContainer)%list in
  let cmdLink := (cmdLink ++ ["-o"; outputExeContainer])%list in
  let* (out, exit, err) := execInContainer conn containerID cmdLink in
  (if failed exit err then
     Println LError ["Linking failed:"; out] ;;
     os_Exit 1
   else ret tt) ;;
  Println LSuccess ["Linking done"] ;;
  let localBinDir := "bin" in
  let* err := os_MkdirAll localBinDir in
  if_err err (fun e =>
    Println LError [error_Error e] ;;
    os_Exit 1) ;;
  let localExe := filepath_Join [localBinDir; Package_Name (Config_Package config)] in
  let localExe :=
    if String.eqb GOOS "windows" then localExe +:+ ".exe" else localExe in
  let* err :=
    copyFile (filepath_Join [tempDir; "bin"; Package_Name (Config_Package config)])
      localExe in
  if_err err (fun e =>
    Println LError ["Failed to copy executable:"; error_Error e] ;;
    os_Exit 1) ;;
  Println LSuccess ["Compilation complete"].

(** [compileProject], lines 163-237, followed by the part above. *)
Definition compileProject (binPath : string) : M unit :=
  with_defers (
    Println LSection ["Compiling Vira project"] ;;
    let* (config, err) := loadConfig in
    if_err err (fun e =>
      Println LError [error_Error e] ;;
      os_Exit 1) ;;
    let* (tempDir, err) := os_MkdirTemp "virus-build-*" in
    if_err err (fun e =>
      Println LError ["Failed to create temp dir:"; error_Error e] ;;
      os_Exit 1) ;;
    defer (DeferRemoveAll tempDir) ;;
    let* projectFile := findProjectFile in
    (if String.eqb projectFile "" then
       Println LError ["No project file found"] ;;
       os_Exit 1
     else ret tt) ;;
    let* err :=
      copyFile projectFile (filepath_Join [tempDir; filepath_Base projectFile]) in
    if_err err (fun e =>
      Println LError ["Failed to copy project file:"; error_Error e] ;;
      os_Exit 1) ;;
    let* err := copyDir "src" (filepath_Join [tempDir; "src"]) in
    if_err err (fun e =>
      Println LError ["Failed to copy src dir:"; error_Error e] ;;
      os_Exit 1) ;;
    let depsDirTemp := filepath_Join [tempDir; depsDir] in
    let* err := os_MkdirAll depsDirTemp in
    if_err err (fun e =>
      Println LError ["Failed to create deps dir:"; error_Error e] ;;
      os_Exit 1) ;;
    let* (index, err) := downloadIndex in
    if_err err (fun e =>
      Println LError ["Failed to download index:"; error_Error e] ;;
      os_Exit 1) ;;
    let ctx := ctxBackground in
    let runtimeDir := env_getenv env "XDG_RUNTIME_DIR" in
    let runtimeDir :=
      if String.eqb runtimeDir "" then "/run/user/" +:+ Sprintf_d (env_getuid env)
      else runtimeDir in
    let socketPath := "unix://" +:+ runtimeDir +:+ "/podman/podman.sock" in
    let* (conn, err) := bindings_NewConnection socketPath in
    if_err err (fun e =>
      Println LError ["Failed to connect to Podman:"; error_Error e] ;;
      os_Exit 1) ;;
    let* err := images_Pull conn wolfiImage in
    if_err err (fun e =>
      Println LError ["Failed to pull Wolfi image:"; error_Error e] ;;
      os_Exit 1) ;;
    let s :=
      mkSpec wolfiImage
        [mkMount "bind" tempDir "/work" ["rw"];
         mkMount "bind" binPath "/vira-bin" ["ro"]]
        "/work"
        ["/bin/sh"; "-c"; "while true; do sleep 100000; done"] in
    let* (containerID, err) := containers_CreateWithSpec conn s in
    if_err err (fun e =>
      Println LError ["Failed to create container:"; error_Error e] ;;
      os_Exit 1) ;;
    let* err := containers_Start conn containerID in
    if_err err (fun e =>
      Println LError ["Failed to start container:"; error_Error e] ;;
      os_Exit 1) ;;
    defer (DeferTeardown conn containerID) ;;
    compileProject_inSandbox binPath ctx conn containerID tempDir depsDirTemp
      config index).

(** The [compile] command: [init] has run before [main] calls
    [compileProject]. *)
Definition main_compile : M unit :=
  let* binPath := init in
  compileProject binPath.

End Program.

(** ** The life of the sandbox session, read off the log *)

(** [failed exit err] for the triple that [execInContainer] returns *)
Definition outcome_failed (r : ExecOutcome) : bool :=
  match r with
  | ExecExited _ code => negb (code =? 0)
  | _ => true
  end.

(** The output that [execInContainer] returns *)
Definition outcome_output (r : ExecOutcome) : string :=
  match r with
  | ExecCreateFailed _ => ""
  | ExecAttachFailed buf _ | ExecInspectFailed buf _ | ExecExited buf _ => buf
  end.

Definition exec_failed (e : Event) : bool :=
  match e with
  | EvExec _ _ _ r => outcome_failed r
  | _ => false
  end.

Definition is_exec (e : Event) : bool :=
  match e with EvExec _ _ _ _ => true | _ => false end.

Definition is_stop (e : Event) : bool :=
  match e with EvStop _ => true | _ => false end.

Definition is_remove (e : Event) : bool :=
  match e with EvRemove _ => true | _ => false end.


(** The reports of a dependency that cannot be resolved or downloaded. *)
Definition is_resolution_failure (e : Event) : bool :=
  match e with
  | EvPrint LError [s; _] =>
      String.eqb s "Library not found:" || String.eqb s "Failed to download:"
  | EvPrint LError [s; _; _] => String.eqb s "No matching version for"
  | _ => false
  end.

(** Where the session stands after the events seen so far. [Failed]: a
    command in the container has failed, and [since] are the events after
    it, most recent first. [Unresolved]: the last event reported a
    dependency that could not be resolved or downloaded. [Bad]: an order of
    events outside the protocol. *)
Inductive Phase :=
| Idle
| Created (id : string)
| Running (id : string)
| Failed (id : string) (since : list Event)
| Unresolved (id : string)
| Stopped (id : string)
| Removed (id : string)
| Bad.

Definition observe (p : Phase) (e : Event) : Phase :=
  match p with
  | Idle =>
      match e with
      | EvCreate _ id None => Created id
      | EvCreate _ _ (Some _) => Idle
      | EvStart _ _ | EvStop _ | EvRemove _ | EvExec _ _ _ _ => Bad
      | _ => if is_resolution_failure e then Bad else Idle
      end
  | Created id =>
      match e with
      | EvStart id' None => if String.eqb id' id then Running id else Bad
      | EvStart id' (Some _) => if String.eqb id' id then Created id else Bad
      | EvCreate _ _ _ | EvStop _ | EvRemove _ | EvExec _ _ _ _ => Bad
      | _ => if is_resolution_failure e then Bad else Created id
      end
  | Running id =>
      match e with
      | EvExec _ id' _ r =>
          if String.eqb id' id
          then if outcome_failed r then Failed id [] else Running id
          else Bad
      | EvStop id' => if String.eqb id' id then Stopped id else Bad
      | EvCreate _ _ _ | EvStart _ _ | EvRemove _ => Bad
      | _ => if is_resolution_failure e then Unresolved id else Running id
      end
  | Failed id since =>
      match e with
      | EvPrint _ _ | EvCommand _ _ =>
          if is_resolution_failure e then Bad else Failed id (e :: since)
      | _ => Bad
      end
  | Unresolved _ => Bad
  | Stopped id =>
      match e with
      | EvRemove id' => if String.eqb id' id then Removed id else Bad
      | _ => Bad
      end
  | Removed _ => Bad
  | Bad => Bad
  end.

Fixpoint phase (log : list Event) : Phase :=
  match log with
  | [] => Idle
  | e :: older => observe (phase older) e
  end.

(** What follows a failed command: one error report, or the three events
    of [handleError] (most recent first). *)
Definition reported (since : list Event) : Prop :=
  match since with
  | [EvPrint LError _] => True
  | [EvPrint _ [_]; EvCommand _ _;
     EvPrint LError ["Error occurred. Running diagnostic..."]] => True
  | _ => False
  end.

(** The phases in which a run may end with [os.Exit]. *)
Definition exit_phase (p : Phase) : Prop :=
  match p with
  | Idle | Created _ | Running _ | Unresolved _ => True
  | Failed _ since => reported since
  | Stopped _ | Removed _ | Bad => False
  end.

(** [m] always returns, logs exactly [events] (most recent first) and
    leaves the deferred calls as they are. *)
Definition returns_logging {A} (m : M A) (events : list Event) : Prop :=
  forall w, exists a w',
    m w = (Ret a, w') /\
    w_log w' = (events ++ w_log w)%list /\
    w_defers w' = w_defers w.

(** [log] is [base] with further events put in front, each of which
    satisfies [P]. *)
Inductive grown (P : Event -> Prop) (base : list Event) : list Event -> Prop :=
| grown_base : grown P base base
| grown_event e log : P e -> grown P base log -> grown P base (e :: log).

(** The events that leave a running session running: reports other than
    those of an unresolved dependency, transfers, and commands in this
    container that succeed. *)
Definition keeps_running (id : string) (e : Event) : Prop :=
  observe (Running id) e = Running id.


(** The world after [os.MkdirAll(path)] has succeeded *)
Definition with_dir (path : string) (w : World) : World :=
  match w_fs w !! path with
  | None => set_fs (<[path := Dir]> (w_fs w)) w
  | Some _ => w
  end.

(** The directory part of a path: the text before its last [/], if it has
    one. *)
Fixpoint dirname (path : string) : option string :=
  match path with
  | EmptyString => None
  | String c rest =>
      match dirname rest with
      | Some dir => Some (String c dir)
      | None => if Ascii.eqb c "/" then Some EmptyString else None
      end
  end.

(** The directory in which [path] is to be created exists: [path] names an
    entry of the working directory or of the root, or its directory part
    is a directory of the file system. *)
Definition parent_present (path : string) (w : World) : Prop :=
  match dirname path with
  | None | Some EmptyString => True
  | Some dir => w_fs w !! dir = Some Dir
  end.

(** ** A Linux platform, to run the program on concrete inputs

    [path/filepath] as it behaves with the separator [/]; [strings.ToLower]
    on ASCII; [fmt.Sscanf] on messages that start with the canonical
    [line L, column C]; the two decoders as tables from a document to what
    it decodes to. The theorems below do not depend on this instance. *)

Module Linux.

Definition clean_step (rooted : bool) (stack : list string) (elem : string)
  : list string :=
  if String.eqb elem "" || String.eqb elem "." then stack
  else if String.eqb elem ".." then
    match stack with
    | top :: rest => if String.eqb top ".." then elem :: stack else rest
    | [] => if rooted then [] else [elem]
    end
  else elem :: stack.

(** [filepath.Clean] *)
Definition Clean (path : string) : string :=
  let rooted := GoStrings.HasPrefix path "/" in
  let stack := fold_left (clean_step rooted) (GoStrings.Split path "/") [] in
  let body := GoStrings.Join (rev stack) "/" in
  if rooted then "/" +:+ body
  else if String.eqb body "" then "." else body.

(** [filepath.Join] *)
Fixpoint Join (elem : list string) : string :=
  match elem with
  | [] => ""
  | e :: rest =>
      if String.eqb e "" then Join rest
      else Clean (GoStrings.Join elem "/")
  end.

(** [filepath.Base] *)
Definition Base (path : string) : string :=
  if String.eqb path "" then "."
  else
    match filter (fun e => e <> "") (rev (GoStrings.Split path "/")) with
    | e :: _ => e
    | [] => "/"
    end.

Fixpoint from_last_dot (s : string) : option string :=
  match s with
  | EmptyString => None
  | String c s' =>
      match from_last_dot s' with
      | Some x => Some x
      | None => if Ascii.eqb c "." then Some s else None
      end
  end.

(** [filepath.Ext] *)
Definition Ext (path : string) : string :=
  match rev (GoStrings.Split path "/") with
  | e :: _ => default "" (from_last_dot e)
  | [] => ""
  end.

(** [filepath.Rel(base, targ)] for [targ] equal to or below [base] *)
Definition Rel (base targ : string) : string * option error :=
  if String.eqb targ base then (".", None)
  else if GoStrings.HasPrefix targ (base +:+ "/") then
    (GoStrings.slice_from (String.length (base +:+ "/")) targ, None)
  else ("", Some (ErrOther ("Rel: can't make " +:+ targ +:+ " relative to " +:+ base))).

Definition lower (c : ascii) : ascii :=
  let n := nat_of_ascii c in
  if ((65 <=? n) && (n <=? 90))%nat then ascii_of_nat (n + 32) else c.

(** [strings.ToLower] *)
Fixpoint ToLower (s : string) : string :=
  match s with
  | EmptyString => EmptyString
  | String c s' => String (lower c) (ToLower s')
  end.

Definition digit (c : ascii) : option Z :=
  let n := nat_of_ascii c in
  if ((48 <=? n) && (n <=? 57))%nat then Some (Z.of_nat (n - 48)) else None.

Fixpoint digits (acc : Z) (seen : bool) (s : string) : option (Z * string) :=
  match s with
  | EmptyString => if seen then Some (acc, s) else None
  | String c s' =>
      match digit c with
      | Some d => digits (10 * acc + d) true s'
      | None => if seen then Some (acc, s) else None
      end
  end.

(** [%d] *)
Definition scan_int (s : string) : option (Z * string) :=
  match s with
  | String "-" s' =>
      match digits 0 false s' with
      | Some (n, rest) => Some (- n, rest)
      | None => None
      end
  | String "+" s' => digits 0 false s'
  | _ => digits 0 false s
  end.

Definition literal (lit s : string) : option string :=
  if GoStrings.HasPrefix s lit then Some (GoStrings.slice_from (String.length lit) s)
  else None.

Definition Sscanf (message : string) : Scanned :=
  match literal "line " message with
  | None => ScanNone
  | Some s1 =>
      match scan_int s1 with
      | None => ScanNone
      | Some (l, s2) =>
          match literal ", column " s2 with
          | None => ScanLine l
          | Some s3 =>
              match scan_int s3 with
              | None => ScanLine l
              | Some (c, _) => ScanBoth l c
              end
          end
      end
  end.

Definition decode {A} (zero : A) (table : list (string * A)) (data : string)
  : A * option error :=
  match find (fun entry => String.eqb (fst entry) data) table with
  | Some entry => (snd entry, None)
  | None => (zero, Some (ErrOther "cannot decode document"))
  end.

Definition platform (manifests : list (string * Config))
    (catalogs : list (string * LibraryIndex)) : GoPlatform :=
  {| GOOS := "linux";
     filepath_Join := Join;
     filepath_Base := Base;
     filepath_Ext := Ext;
     filepath_Rel := Rel;
     strings_ToLower := ToLower;
     Sscanf_line_column := Sscanf;
     toml_Unmarshal := decode (mkConfig (mkPackage "" "") []) manifests;
     json_Unmarshal := decode (mkLibraryIndex []) catalogs |}.

End Linux.

(** ** Concrete builds *)

Module Build.

Definition manifest_text : string := "[package] ...".
Definition catalog_text : string := "{libraries: ...}".
Definition tempDir : string := "/tmp/virus-build-1".

(** What varies between the builds below: the manifest, the catalog, the
    answer to the download of a dependency, and how a command run in the
    container ends together with the host files it writes. *)
Record Inputs := mkInputs {
  in_manifest : Config;
  in_catalog : LibraryIndex;
  in_download : string -> HttpResult;
  in_exec : list string -> ExecOutcome * list (string * string);
  in_diagnostic : string * option error
}.

Definition platform (i : Inputs) : GoPlatform :=
  Linux.platform [(manifest_text, in_manifest i)] [(catalog_text, in_catalog i)].

Definition write_files (files : list (string * string)) (fs : gmap string Node)
  : gmap string Node :=
  fold_left (fun fs' file => <[fst file := File (snd file)]> fs') files fs.

Definition env (i : Inputs) : Env :=
  {| env_getenv := fun _ => "";
     env_getuid := 1000;
     env_mkdirTemp := fun _ => (tempDir, None);
     env_walk := fun _ root =>
       [mkWalkEntry root true None;
        mkWalkEntry (root +:+ "/main.vira") false None];
     env_http := fun _ url =>
       if String.eqb url
            "https://raw.githubusercontent.com/vira-language/vira/main/repository/virus.json"
       then HttpResponse 200 catalog_text None
       else in_download i url;
     env_newConnection := fun _ _ => None;
     env_pull := fun _ _ => None;
     env_create := fun _ _ => ("c0ffee", None);
     env_start := fun _ _ => None;
     env_exec := fun w _ _ cmd =>
       (fst (in_exec i cmd), write_files (snd (in_exec i cmd)) (w_fs w));
     env_command := fun _ _ _ => in_diagnostic i |}.

(** The project directory before the build. *)
Definition start : World :=
  mkWorld
    (<["Project.toml" := File manifest_text]>
       (<["src" := Dir]>
          (<["src/main.vira" := File "int main() { return 0; }"]> ∅)))
    [] [].

Definition run (i : Inputs) : Outcome unit * World :=
  @main_compile (platform i) (env i) start.

(** Every command succeeds; the link writes the executable. *)
Definition exec_ok (name : string) (cmd : list string)
  : ExecOutcome * list (string * string) :=
  match cmd with
  | "gcc" :: "/work/main.o" :: _ | "gcc" :: _ :: "/work/main.o" :: _ =>
      (ExecExited "" 0, [(tempDir +:+ "/bin/" +:+ name, "ELF")])
  | _ => (ExecExited "" 0, [])
  end.

(** A project without dependencies that builds. *)
Definition plain : Inputs :=
  mkInputs (mkConfig (mkPackage "myproject" "0.1.0") []) (mkLibraryIndex [])
    (fun _ => HttpError (ErrOther "no such host"))
    (exec_ok "myproject")
    ("", None).

(** The same project when the preprocessor rejects [src/main.vira]. *)
Definition preprocess_fails : Inputs :=
  mkInputs (in_manifest plain) (in_catalog plain) (in_download plain)
    (fun cmd =>
       match cmd with
       | "preprocessor" :: _ => (ExecExited "line 3, column 7: unexpected token" 1, [])
       | _ => exec_ok "myproject" cmd
       end)
    ("error: unexpected token", None).


(** The download of every dependency breaks off after three bytes. *)
Definition interrupted : Inputs :=
  mkInputs (in_manifest plain) (in_catalog plain)
    (fun _ => HttpResponse 200 "par" (Some (ErrOther "unexpected EOF")))
    (exec_ok "myproject") ("", None).

(** The diagnostic tool is not installed. *)
Definition no_diagnostic_tool : Inputs :=
  mkInputs (in_manifest plain) (in_catalog plain) (in_download plain)
    (in_exec preprocess_fails)
    ("", Some (ErrOther "fork/exec /usr/lib/vira-lang/bin/diagnostic: no such file or directory")).

(** A library with one version, whose download succeeds. *)
Definition mathlib : Version :=
  mkVersion "1.0.0" "https://example.org/libs/mathlib.vira".

Definition served : Inputs :=
  mkInputs (mkConfig (mkPackage "myproject" "0.1.0") [("mathlib", "*")])
    (mkLibraryIndex [mkLibrary "mathlib" [mathlib]])
    (fun _ => HttpResponse 200 "fn sqrt() {}" None)
    (exec_ok "myproject") ("", None).

(** A library whose only artifact is a text file. *)
Definition notes : Version :=
  mkVersion "0.3.0" "https://example.org/libs/NOTES.TXT".

Definition documented : Inputs :=
  mkInputs (mkConfig (mkPackage "myproject" "0.1.0") [("notes", "*")])
    (mkLibraryIndex [mkLibrary "notes" [notes]])
    (fun _ => HttpResponse 200 "see the manual" None)
    (exec_ok "myproject") ("", None).

End Build.

(** ** The commands that write the manifest ([src/source/main.go]) *)

(** [toml.Marshal], and the decoders of the two other manifest formats
    that the build of [src/cmd/main.go] accepts ([yaml.Unmarshal] and
    [json.Unmarshal] into a [Config]); as for [GoPlatform], every
    implementation is admitted. *)
Class GoCodecs := {
  toml_Marshal : Config -> string * option error;
  yaml_Unmarshal : string -> Config * option error;
  json_Unmarshal_Config : string -> Config * option error
}.

(** The raw string literal of [initProject]: three lines, the second one
    indented with a tab. *)
Definition mainCode : string :=
  "int main() {" +:+ String "010" (String "009" "return 0;") +:+
  String "010" "}" +:+ String "010" "".

Section Manifest.

Context {platform : GoPlatform} {codecs : GoCodecs}.

(** [saveConfig] *)
Definition saveConfig (config : Config) : M (option error) :=
  let '(data, err) := toml_Marshal config in
  match err with
  | Some e => ret (Some e)
  | None => os_WriteFile projectTOML data
  end.

(** [initProject] *)
Definition initProject : M unit :=
  Println LSection ["Initializing Vira project"] ;;
  let config := mkConfig (mkPackage "myproject" "0.1.0") [] in
  let '(data, err) := toml_Marshal config in
  if_err err (fun e =>
    Println LError ["Failed to marshal config:"; error_Error e] ;;
    os_Exit 1) ;;
  let* err := os_WriteFile projectTOML data in
  if_err err (fun e =>
    Println LError ["Failed to write Project.toml:"; error_Error e] ;;
    os_Exit 1) ;;
  let* err := os_MkdirAll "src" in
  if_err err (fun e =>
    Println LError ["Failed to create src dir:"; error_Error e] ;;
    os_Exit 1) ;;
  let* err := os_WriteFile "src/main.vira" mainCode in
  if_err err (fun e =>
    Println LError ["Failed to write main.vira:"; error_Error e] ;;
    os_Exit 1) ;;
  Println LSuccess ["Project initialized"].

End Manifest.

(** ** The build without a sandbox and the download of the library manager
    ([src/cmd/main.go])

    [init], [downloadIndex], [findLibrary], [resolveVersion],
    [downloadWithProgress] and [handleError] have the same text there as in
    [src/source/main.go], and the statements that make an artifact present
    (lines 438-453) are those of [compileProject_ensure] with [depsDir] as
    the root. *)

Module Cmd.

Definition projectYAML : string := "Project.yaml".
Definition projectJSON : string := "Project.json".

Section Program.

Context {platform : GoPlatform} {codecs : GoCodecs} (env : Env).

(** [downloadFile] (lines 212-236) *)
Definition downloadFile (url path : string) : M (option error) :=
  let* resp := http_Get env url in
  match resp with
  | HttpError e => ret (Some e)
  | HttpResponse status body rdErr =>
      if negb (status =? 200) then
        ret (Some (fmt_Errorf ("status " +:+ Sprintf_d status)))
      else
        let* err := os_Create path in
        match err with
        | Some e => ret (Some e)
        | None => io_Copy path body rdErr
        end
  end.

(** [loadConfig] (lines 532-564): the first of [Project.toml],
    [Project.yaml], [Project.json] of which [os.Stat] succeeds. *)
Definition loadConfig : M (Config * option error) :=
  let config := mkConfig (mkPackage "" "") [] in
  let* err := os_Stat projectTOML in
  match err with
  | None =>
      let* (data, err) := os_ReadFile projectTOML in
      match err with
      | Some e => ret (config, Some e)
      | None => ret (toml_Unmarshal data)
      end
  | Some _ =>
      let* err := os_Stat projectYAML in
      match err with
      | None =>
          let* (data, err) := os_ReadFile projectYAML in
          match err with
          | Some e => ret (config, Some e)
          | None => ret (yaml_Unmarshal data)
          end
      | Some _ =>
          let* err := os_Stat projectJSON in
          match err with
          | None =>
              let* (data, err) := os_ReadFile projectJSON in
              match err with
              | Some e => ret (config, Some e)
              | None => ret (json_Unmarshal_Config data)
              end
          | Some _ => ret (config, Some (fmt_Errorf "no project file found"))
          end
      end
  end.

(** [compileProject], lines 425-456: the body of the loop over
    [config.Dependencies], on the loop-carried variable [includePaths]. *)
Definition compileProject_dependency (index : LibraryIndex)
    (name versionSpec : string) (includePaths : list string) : M (list string) :=
  match findLibrary index name with
  | None =>
      Println LError ["Library not found:"; name] ;;
      os_Exit 1
  | Some lib =>
      match resolveVersion (Library_Versions lib) versionSpec with
      | None =>
          Println LError ["No matching version for"; name; versionSpec] ;;
          os_Exit 1
      | Some version =>
          let* (depPath, fileName, targetFile) :=
            compileProject_ensure env depsDir name version in
          ret (includePaths ++ [depPath])%list
      end
  end.

Fixpoint compileProject_dependencies (index : LibraryIndex)
    (deps : list (string * string)) (includePaths : list string)
  : M (list string) :=
  match deps with
  | [] => ret includePaths
  | (name, versionSpec) :: rest =>
      let* includePaths' :=
        compileProject_dependency index name versionSpec includePaths in
      compileProject_dependencies index rest includePaths'
  end.

(** [filepath.Join(binPath, name)], with [.exe] on Windows *)
Definition tool (binPath name : string) : string :=
  let path := filepath_Join [binPath; name] in
  if String.eqb GOOS "windows" then path +:+ ".exe" else path.

(** [compileProject] (lines 404-530) *)
Definition compileProject (binPath : string) : M unit :=
  Println LSection ["Compiling Vira project"] ;;
  let* (config, err) := loadConfig in
  if_err err (fun e =>
    Println LError [error_Error e] ;;
    os_Exit 1) ;;
  let* (index, err) := downloadIndex env in
  if_err err (fun e =>
    Println LError ["Failed to download index:"; error_Error e] ;;
    os_Exit 1) ;;
  let* err := os_MkdirAll depsDir in
  if_err err (fun e =>
    Println LError ["Failed to create deps dir:"; error_Error e] ;;
    os_Exit 1) ;;
  let* includePaths :=
    compileProject_dependencies index (Config_Dependencies config) [] in
  let inputFile := "src/main.vira" in
  let outputPre := inputFile +:+ ".pre" in
  let outputObj := inputFile +:+ ".o" in
  Println LSection ["Preprocessing"] ;;
  let preprocessor := tool binPath "preprocessor" in
  let cmdPreArgs :=
    ([inputFile; outputPre] ++ flat_map (fun path => ["-I"; path]) includePaths)%list in
  let* (out, err) := exec_CombinedOutput env preprocessor cmdPreArgs in
  if_err err (fun _ =>
    handleError env binPath inputFile out ;;
    os_Exit 1) ;;
  Println LSuccess ["Preprocessing done"] ;;
  Println LSection ["Parsing and Checking"] ;;
  let plsa := tool binPath "plsa" in
  let* (out, err) := exec_CombinedOutput env plsa [outputPre] in
  if_err err (fun _ =>
    handleError env binPath outputPre out ;;
    os_Exit 1) ;;
  Println LSuccess ["PLSA done"] ;;
  Println LSection ["Compiling"] ;;
  let compiler := tool binPath "compiler" in
  let* (out, err) := exec_CombinedOutput env compiler [outputPre; outputObj] in
  if_err err (fun _ =>
    handleError env binPath outputPre out ;;
    os_Exit 1) ;;
  Println LSuccess ["Compilation done"] ;;
  Println LSection ["Linking"] ;;
  let outputExe := "bin/" +:+ Package_Name (Config_Package config) in
  (if String.eqb GOOS "windows" then
     let linker := "link.exe" in
     let outputExe := outputExe +:+ ".exe" in
     let* (out, err) :=
       exec_CombinedOutput env linker ["/OUT:" +:+ outputExe; outputObj] in
     if_err err (fun _ =>
       Println LError [out] ;;
       os_Exit 1)
   else
     let linker := "gcc" in
     let* err := os_MkdirAll "bin" in
     if_err err (fun e =>
       Println LError [error_Error e] ;;
       os_Exit 1) ;;
     let* (out, err) :=
       exec_CombinedOutput env linker [outputObj; "-o"; outputExe] in
     if_err err (fun _ =>
       Println LError [out] ;;
       os_Exit 1)) ;;
  Println LSuccess ["Linking done"].

End Program.

End Cmd.

(** ** Further readings of the log *)

Definition is_command (e : Event) : bool :=
  match e with EvCommand _ _ => true | _ => false end.

(** The name of the program of a command run on the host *)
Definition command_name (e : Event) : option string :=
  match e with EvCommand name _ => Some name | _ => None end.

(** The test of the loop of [compileProject] on the lowercased extension *)
Definition recognised (ext : string) : bool :=
  String.eqb ext ".vira" || String.eqb ext ".c" || String.eqb ext ".cpp".

(** ** The variables of the dependency loop *)

(** [depPath] of the loop of [compileProject] for a resolved dependency *)
Definition dependency_dir {platform : GoPlatform} (depsDirTemp name : string)
    (version : Version) : string :=
  filepath_Join [depsDirTemp; name; Version_Version version].

(** What one dependency appends to [objectFilesContainer]: [containerO] when
    the extension of its artifact is recognised, nothing otherwise. *)
Definition dependency_objects {platform : GoPlatform} (tempDir depsDirTemp name : string)
    (version : Version) : list string :=
  if recognised (strings_ToLower (filepath_Ext (filepath_Base (Version_URL version))))
  then [GoStrings.Replace1 (dependency_dir depsDirTemp name version) tempDir "/work"
          +:+ "/lib.o"]
  else [].

(** [findLibrary] and [resolveVersion] select [version] for a dependency. *)
Definition selects (index : LibraryIndex) (dep : string * string) (version : Version)
  : Prop :=
  exists lib,
    findLibrary index (fst dep) = Some lib /\
    resolveVersion (Library_Versions lib) (snd dep) = Some version.

(** ** Concrete manifests *)

Module Manifests.

Definition quoted (s : string) : string := String "034" s +:+ String "034" "".

Definition line (key value : string) : string :=
  key +:+ " = " +:+ quoted value +:+ String "010" "".

(** A TOML encoder for [Config]: the package table, then one line for each
    dependency. *)
Definition render (config : Config) : string :=
  "[package]" +:+ String "010" "" +:+
  line "name" (Package_Name (Config_Package config)) +:+
  line "version" (Package_Version (Config_Package config)) +:+
  String "010" "[dependencies]" +:+ String "010" "" +:+
  String.concat "" (map (fun dep => line (fst dep) (snd dep))
                      (Config_Dependencies config)).

(** The configuration that [initProject] writes *)
Definition fresh : Config := mkConfig (mkPackage "myproject" "0.1.0") [].

Definition yaml_text : string := "package: {name: myproject, version: 0.1.0}".

Definition platform : GoPlatform := Linux.platform [(render fresh, fresh)] [].

Definition codecs : GoCodecs :=
  {| toml_Marshal := fun config => (render config, None);
     yaml_Unmarshal := Linux.decode (mkConfig (mkPackage "" "") []) [(yaml_text, fresh)];
     json_Unmarshal_Config := Linux.decode (mkConfig (mkPackage "" "") []) [] |}.

(** An empty directory *)
Definition empty : World := mkWorld ∅ [] [].

(** A directory with an older manifest and an older main source *)
Definition used : World :=
  mkWorld
    (<["Project.toml" := File "[package]"]>
       (<["src" := Dir]> (<["src/main.vira" := File "int main() { return 1; }"]> ∅)))
    [] [].

(** A directory where [src] is a file *)
Definition occupied : World :=
  mkWorld (<["src" := File "notes"]> (<["Project.toml" := File "[package]"]> ∅)) [] [].

(** A project whose manifest is Project.yaml *)
Definition yaml_only : World := mkWorld (<["Project.yaml" := File yaml_text]> ∅) [] [].

(** A project with a directory at Project.toml beside Project.yaml *)
Definition toml_is_dir : World :=
  mkWorld (<["Project.toml" := Dir]> (<["Project.yaml" := File yaml_text]> ∅)) [] [].


(** The build directory after a first copy of [src] *)
Definition copied : World :=
  mkWorld (<["/tmp/virus-build-1/src" := Dir]> (w_fs Build.start)) [] [].

End Manifests.

(** ** Properties of the resolver *)

Section Resolver.

Implicit Types (versions : list Version) (p : Version -> bool).

Lemma scanDown_in_range p versions n :
  (n <= length versions)%nat ->
  forall i, (i < n)%nat -> is_Some (versions !! i).
Proof. intros Hn i Hi. apply lookup_lt_is_Some. lia. Qed.

(** The downward scan over the first [n] elements. *)
Lemma scanDown_Some p versions n v :
  (n <= length versions)%nat ->
  scanDown p versions n = Some v <->
  exists i, (i < n)%nat /\ versions !! i = Some v /\ p v = true /\
    forall j w, (i < j < n)%nat -> versions !! j = Some w -> p w = false.
Proof.
  induction n as [|n IH]; intros Hn; simpl.
  - split; [discriminate | intros (i & Hi & _); lia].
  - destruct (lookup_lt_is_Some_2 versions n ltac:(lia)) as [x Hx].
    rewrite Hx. destruct (p x) eqn:Hp.
    + split.
      * intros [= <-]. exists n. split_and!; auto. intros; lia.
      * intros (i & Hi & Hv & Hpv & Hlater).
        destruct (decide (i = n)) as [->|Hne]; [congruence|].
        rewrite (Hlater n x) in Hp; [discriminate | lia | done].
    + rewrite IH by lia. split.
      * intros (i & Hi & Hv & Hpv & Hlater). exists i.
        split_and!; auto.
        intros j w Hj Hw. destruct (decide (j = n)) as [->|Hne].
        -- congruence.
        -- apply (Hlater j); [lia | done].
      * intros (i & Hi & Hv & Hpv & Hlater).
        destruct (decide (i = n)) as [->|Hne]; [congruence|].
        exists i. split_and!; auto; [lia|].
        intros j w Hj Hw. apply (Hlater j); [lia | done].
Qed.

Lemma scanDown_None p versions n :
  (n <= length versions)%nat ->
  scanDown p versions n = None <->
  forall i w, (i < n)%nat -> versions !! i = Some w -> p w = false.
Proof.
  induction n as [|n IH]; intros Hn; simpl.
  - split; [intros _ i w Hi; lia | done].
  - destruct (lookup_lt_is_Some_2 versions n ltac:(lia)) as [x Hx].
    rewrite Hx. destruct (p x) eqn:Hp.
    + split; [discriminate|]. intros H. rewrite (H n x) in Hp; [done | lia | done].
    + rewrite IH by lia. split.
      * intros H i w Hi Hw. destruct (decide (i = n)) as [->|Hne]; [congruence|].
        apply (H i); [lia | done].
      * intros H i w Hi Hw. apply (H i); [lia | done].
Qed.

(** A predicate that accepts everything stops at the last element. *)
Lemma scanDown_accept_all p versions :
  (forall v, p v = true) ->
  scanDown p versions (length versions) = last versions.
Proof.
  intros Hp. destruct versions as [|x l _] using rev_ind; [done|].
  rewrite length_app, last_snoc. simpl.
  replace (length l + 1)%nat with (S (length l)) by lia. simpl.
  rewrite lookup_app_r by lia. rewrite Nat.sub_diag. simpl. by rewrite Hp.
Qed.

Lemma resolveVersion_star versions :
  resolveVersion versions "*" = last versions.
Proof.
  unfold resolveVersion. simpl.
  destruct versions as [|x l _] using rev_ind; [done|].
  rewrite length_app, last_snoc. simpl.
  destruct (Nat.ltb_spec 0 (length l + 1)); [|lia].
  rewrite lookup_app_r by lia.
  replace (length l + 1 - 1 - length l)%nat with O by lia. done.
Qed.

Lemma resolveVersion_caret versions prefix :
  resolveVersion versions (String "^" prefix) =
  scanDown (fun v => GoStrings.HasPrefix (Version_Version v) prefix)
           versions (length versions).
Proof.
  unfold resolveVersion, GoStrings.HasPrefix. simpl.
  destruct prefix; reflexivity.
Qed.

End Resolver.



(** C5: for every version list, the spec "*" resolves to exactly the last
    element of the list (the latest, the list being ordered oldest first),
    and resolution finds nothing if and only if the list is empty. *)
Theorem resolve_star_returns_last (versions : list Version) :
  resolveVersion versions "*" = last versions /\
  (resolveVersion versions "*" = None <-> versions = []).
Proof.
  split; [apply resolveVersion_star|].
  rewrite resolveVersion_star. apply last_None.
Qed.

(** C6: for every version list and every spec that starts with '^', the
    rest of the spec is a literal textual prefix: the result is the version
    at the greatest index whose string starts with it (the first one met
    when scanning from the newest to the oldest), and nothing is found if
    and only if no version string starts with it. Over 1.0.0, 1.2.0, 2.0.0
    the spec "^1." resolves to 1.2.0; that the prefix is textual and not a
    semantic-version range shows over 1.0.0, 10.0.0, where "^1" resolves to
    10.0.0. *)
Theorem resolve_caret_is_textual_prefix (versions : list Version) (prefix : string) :
  let matches v := GoStrings.HasPrefix (Version_Version v) prefix in
  let r := resolveVersion versions (String "^" prefix) in
  (forall v, r = Some v <->
     exists i, versions !! i = Some v /\ matches v = true /\
       forall j w, (i < j)%nat -> versions !! j = Some w -> matches w = false) /\
  (r = None <-> forall v, v ∈ versions -> matches v = false) /\
  resolveVersion
    [mkVersion "1.0.0" "u1"; mkVersion "1.2.0" "u2"; mkVersion "2.0.0" "u3"] "^1."
    = Some (mkVersion "1.2.0" "u2") /\
  resolveVersion [mkVersion "1.0.0" "u1"; mkVersion "10.0.0" "u2"] "^1"
    = Some (mkVersion "10.0.0" "u2").
Proof.
  intros matches r. subst r. rewrite resolveVersion_caret.
  split_and!; [| | reflexivity | reflexivity].
  - intros v. rewrite scanDown_Some by lia. split.
    + intros (i & Hi & Hv & Hm & Hlater). exists i. split_and!; auto.
      intros j w Hj Hw. apply (Hlater j); [|done].
      split; [done|]. by apply lookup_lt_Some in Hw.
    + intros (i & Hv & Hm & Hlater). exists i. split_and!; auto.
      * by apply lookup_lt_Some in Hv.
      * intros j w Hj Hw. apply (Hlater j); [lia | done].
  - rewrite scanDown_None by lia. split.
    + intros H v [i Hi]%list_elem_of_lookup.
      apply (H i); [|done]. by apply lookup_lt_Some in Hi.
    + intros H i w _ Hw. apply H. apply list_elem_of_lookup. eauto.
Qed.

(** C9: for every non-empty version list, the spec "^" (a caret with
    nothing after it) resolves to the same version as "*": the empty prefix
    matches every version string, so the scan from the newest to the oldest
    stops at the last element of the list. *)
Theorem resolve_bare_caret_is_star (versions : list Version) :
  versions <> [] ->
  resolveVersion versions "^" = resolveVersion versions "*" /\
  exists v, last versions = Some v /\ resolveVersion versions "^" = Some v.
Proof.
  intros Hne.
  assert (Hcaret : resolveVersion versions "^" = last versions).
  { rewrite resolveVersion_caret.
    apply (scanDown_accept_all
             (fun v => GoStrings.HasPrefix (Version_Version v) "")).
    intros v. unfold GoStrings.HasPrefix.
    destruct (Version_Version v); reflexivity. }
  split; [by rewrite resolveVersion_star|].
  destruct (last versions) as [v|] eqn:Hlast.
  - exists v. by rewrite Hcaret.
  - by apply last_None in Hlast.
Qed.

Lemma resolve_bare_caret_is_star_witness :
  [mkVersion "1.0.0" "u1"; mkVersion "2.0.0" "u2"] <> [] /\
  resolveVersion [mkVersion "1.0.0" "u1"; mkVersion "2.0.0" "u2"] "^"
    = resolveVersion [mkVersion "1.0.0" "u1"; mkVersion "2.0.0" "u2"] "*".
Proof.
  split; [discriminate|].
  apply (resolve_bare_caret_is_star
           [mkVersion "1.0.0" "u1"; mkVersion "2.0.0" "u2"]).
  discriminate.
Defined.

(** ** Running the monad *)

Arguments bind {A B} m k w /.
Arguments ret {A} a w /.
Arguments os_Exit {A} code w /.
Arguments if_err err body w /.
Arguments emit e w /.
Arguments Println lvl args w /.
Arguments add_event e w /.
Arguments set_fs fs w /.
Arguments set_defers ds w /.

(** Reduce the monad operations, the record projections and the updates of
    the world, and nothing else. *)
Ltac msimpl :=
  cbn [bind ret os_Exit if_err Println emit os_IsNotExist failed
       add_event set_fs set_defers w_fs w_log w_defers fst snd] in *.

(** ** The artifact store *)

Section Fetch.

Context {platform : GoPlatform} (env : Env).

Lemma downloadWithProgress_run url target w :
  w_fs w !! target <> Some Dir ->
  downloadWithProgress env url target w =
  match env_http env w url with
  | HttpError e => (Ret (Some e), add_event (EvHttpGet url) w)
  | HttpResponse _ body rdErr =>
      (Ret rdErr,
       set_fs (<[target := File body]> (w_fs w)) (add_event (EvHttpGet url) w))
  end.
Proof.
  intros Hdir. unfold downloadWithProgress, bind, http_Get.
  destruct (env_http env w url) as [e|status body rdErr]; [done|].
  unfold os_Create. simpl.
  assert (Hcreate :
    match w_fs w !! target with
    | Some Dir => False
    | _ => True
    end).
  { destruct (w_fs w !! target) as [[]|]; done. }
  destruct (w_fs w !! target) as [[data|]|] eqn:Hfs; try done;
    unfold io_Copy, set_fs; simpl;
    rewrite lookup_insert_eq; simpl; by rewrite insert_insert_eq.
Qed.

End Fetch.

(** C3, as stated, fails: when the transfer of an artifact breaks off, the
    bytes received so far are left in a file at the destination path. Here
    the directory of the destination exists and nothing is at the
    destination itself; the body ends with an error after the three bytes
    "par". *)
Lemma interrupted_download_leaves_partial_file :
  ~ (forall (env : Env) (url target : string) (w : World) status body e,
       env_http env w url = HttpResponse status body (Some e) ->
       parent_present target w ->
       w_fs w !! target = None ->
       w_fs (snd (downloadWithProgress env url target w)) !! target = None).
Proof.
  intros H.
  specialize (H (Build.env Build.interrupted)
                "https://example.org/libs/mathlib.vira"
                "/cache/mathlib/1.0.0/mathlib.vira"
                (mkWorld (<["/cache/mathlib/1.0.0" := Dir]> ∅) [] [])
                200 "par" (ErrOther "unexpected EOF")
                eq_refl eq_refl eq_refl).
  vm_compute in H. discriminate.
Qed.

(** C3, amended: every artifact fetch whose destination lies in an existing
    directory and is not itself a directory streams the content straight
    into a file created at the destination path; there is no temporary
    file and no rename. When the request itself fails, the error is
    returned and no file is created; otherwise the file at the destination
    holds the bytes that were received, also when the transfer broke off,
    in which case the error of the transfer is returned. Nothing else in
    the file system changes. *)
Theorem download_writes_destination_directly
    (env : Env) (url target : string) (w : World) :
  parent_present target w ->
  w_fs w !! target <> Some Dir ->
  match env_http env w url with
  | HttpError e =>
      downloadWithProgress env url target w = (Ret (Some e), add_event (EvHttpGet url) w)
  | HttpResponse _ body rdErr =>
      downloadWithProgress env url target w =
      (Ret rdErr,
       set_fs (<[target := File body]> (w_fs w)) (add_event (EvHttpGet url) w))
  end.
Proof.
  intros _ Hdir. rewrite (downloadWithProgress_run env url target w Hdir).
  by destruct (env_http env w url).
Qed.

Lemma download_writes_destination_directly_witness :
  let w := mkWorld (<["/cache/mathlib/1.0.0" := Dir]> ∅) [] [] in
  downloadWithProgress (Build.env Build.interrupted)
    "https://example.org/libs/mathlib.vira" "/cache/mathlib/1.0.0/mathlib.vira" w =
  (Ret (Some (ErrOther "unexpected EOF")),
   set_fs (<["/cache/mathlib/1.0.0/mathlib.vira" := File "par"]> (w_fs w))
     (add_event (EvHttpGet "https://example.org/libs/mathlib.vira") w)).
Proof.
  intros w.
  apply (download_writes_destination_directly (Build.env Build.interrupted)
           "https://example.org/libs/mathlib.vira"
           "/cache/mathlib/1.0.0/mathlib.vira" w).
  - vm_compute. reflexivity.
  - vm_compute. discriminate.
Defined.

Section Ensure.

Context {platform : GoPlatform} (env : Env).
Variables (root name : string) (version : Version).

Let depPath := filepath_Join [root; name; Version_Version version].
Let fileName := filepath_Base (Version_URL version).
Let targetFile := filepath_Join [depPath; fileName].
Let announce := EvPrint LInfo ["Downloading"; name; Version_Version version].


Lemma os_MkdirAll_run w :
  os_MkdirAll depPath w =
  match w_fs w !! depPath with
  | Some (File _) =>
      (Ret (Some (ErrOther ("mkdir " +:+ depPath +:+ ": not a directory"))), w)
  | _ => (Ret None, with_dir depPath w)
  end.
Proof.
  unfold os_MkdirAll, with_dir. by destruct (w_fs w !! depPath) as [[]|].
Qed.

Lemma with_dir_is_dir w :
  (forall data, w_fs w !! depPath <> Some (File data)) ->
  w_fs (with_dir depPath w) !! depPath = Some Dir.
Proof.
  intros Hfile. unfold with_dir.
  destruct (w_fs w !! depPath) as [[data|]|] eqn:Hdep; simpl.
  - by destruct (Hfile data).
  - done.
  - by rewrite lookup_insert_eq.
Qed.

(** A call that returns: either the artifact was there, or it was
    fetched with one transfer that ran to its end. *)
Lemma ensure_returns w r w1 :
  compileProject_ensure env root name version w = (Ret r, w1) ->
  r = (depPath, fileName, targetFile) /\
  w_fs w1 !! depPath = Some Dir /\
  ((is_Some (w_fs (with_dir depPath w) !! targetFile) /\ w1 = with_dir depPath w) \/
   (w_fs (with_dir depPath w) !! targetFile = None /\
    exists status body,
      env_http env (add_event announce (with_dir depPath w)) (Version_URL version)
        = HttpResponse status body None /\
      w1 = set_fs (<[targetFile := File body]> (w_fs (with_dir depPath w)))
             (add_event (EvHttpGet (Version_URL version))
                (add_event announce (with_dir depPath w))))).
Proof.
  unfold compileProject_ensure.
  fold depPath. fold fileName. fold targetFile.
  msimpl. rewrite os_MkdirAll_run.
  destruct (w_fs w !! depPath) as [[data|]|] eqn:Hdep;
    [msimpl; discriminate | |].
  all: assert (Hdir : w_fs (with_dir depPath w) !! depPath = Some Dir)
    by (apply with_dir_is_dir; congruence).
  all: set (w0 := with_dir depPath w) in *; clearbody w0.
  all: msimpl; unfold os_Stat.
  all: destruct (w_fs w0 !! targetFile) as [node|] eqn:Htarget; msimpl.
  all: try (intros [= <- <-]; split_and!; auto; left; eauto).
  all: rewrite downloadWithProgress_run by (msimpl; congruence).
  all: fold announce.
  all: destruct (env_http _ _ _) as [e|status body [e|]] eqn:Hhttp; msimpl;
    try discriminate.
  all: intros [= <- <-]; msimpl; split_and!; auto;
    [ rewrite lookup_insert_ne; [done | intros ->; congruence]
    | right; split; [done|]; eauto ].
Qed.


End Ensure.





(** ** The diagnostic reporter *)

Lemma Split_first_line (s : string) :
  exists message rest,
    GoStrings.Split s "010" = message :: rest /\
    GoStrings.Contains message (String "010" "") = false /\
    (s = message \/ exists tail, s = message +:+ String "010" tail).
Proof.
  induction s as [|c s (message & rest & Hsplit & Hnl & Hs)]; simpl.
  - exists "", []. split_and!; auto.
  - destruct (Ascii.eqb_spec c "010") as [->|Hc].
    + exists "", (GoStrings.Split s "010"). split_and!; auto.
      right. by exists s.
    + rewrite Hsplit. exists (String c message), rest. split_and!; auto.
      * change (GoStrings.Contains (String c message) (String "010" ""))
          with (GoStrings.HasPrefix (String c message) (String "010" "")
                || GoStrings.Contains message (String "010" "")).
        rewrite Hnl. unfold GoStrings.HasPrefix. cbn [String.prefix].
        destruct (ascii_dec "010" c) as [<-|_]; [done|]. reflexivity.
      * destruct Hs as [->|[tail ->]]; [by left|]. right. by exists tail.
Qed.

(** C8, as stated, fails: when the diagnostic tool cannot be run, what is
    printed is the output captured from that tool (here nothing), not the
    raw output of the failed stage. *)
Lemma failed_formatter_does_not_print_stage_output :
  ~ (forall (platform : GoPlatform) (env : Env)
            (binPath sourceFile errorMsg : string) (w : World),
       (forall w1 name args, snd (env_command env w1 name args) <> None) ->
       exists lvl,
         In (EvPrint lvl [errorMsg])
            (w_log (snd (handleError env binPath sourceFile errorMsg w)))).
Proof.
  intros H.
  destruct (H (Build.platform Build.no_diagnostic_tool)
              (Build.env Build.no_diagnostic_tool)
              "/usr/lib/vira-lang/bin" "/tmp/virus-build-1/src/main.vira"
              "undefined symbol foo" Build.start)
    as [lvl Hin]; [discriminate|].
  vm_compute in Hin.
  destruct Hin as [Hin|[Hin|[Hin|[]]]]; discriminate.
Qed.

(** C8, amended: for every failing stage the reporter takes the first line
    of the captured output as the message; the position is line 1, column 1
    unless the message contains "line", in which case it is what
    fmt.Sscanf with the format "line %d, column %d" assigns (both numbers,
    or the line alone, a value that is not assigned staying 1); it runs the
    external diagnostic tool with the source path, the message, the line
    and the column, and prints the output captured from that tool: at error
    level if the tool failed, at info level otherwise. The raw output of
    the stage is not printed. *)
Theorem handleError_reports {platform : GoPlatform} (env : Env)
    (binPath sourceFile errorMsg : string) (w : World) :
  exists message,
    (errorMsg = message \/ exists rest, errorMsg = message +:+ String "010" rest) /\
    GoStrings.Contains message (String "010" "") = false /\
    let position :=
      if GoStrings.Contains message "line" then
        match Sscanf_line_column message with
        | ScanNone => (1, 1)
        | ScanLine l => (l, 1)
        | ScanBoth l c => (l, c)
        end
      else (1, 1) in
    let diagnostic :=
      if String.eqb GOOS "windows"
      then filepath_Join [binPath; "diagnostic"] +:+ ".exe"
      else filepath_Join [binPath; "diagnostic"] in
    let args :=
      ["--source"; sourceFile; "--message"; message;
       "--line"; Sprintf_d (fst position); "--column"; Sprintf_d (snd position)] in
    let w1 := add_event (EvPrint LError ["Error occurred. Running diagnostic..."]) w in
    let result := env_command env w1 diagnostic args in
    handleError env binPath sourceFile errorMsg w =
    (Ret tt,
     add_event
       (EvPrint (match snd result with Some _ => LError | None => LInfo end)
          [fst result])
       (add_event (EvCommand diagnostic args) w1)).
Proof.
  destruct (Split_first_line errorMsg) as (message & rest & Hsplit & Hnl & Hs).
  exists message. split_and!; [done | done |].
  unfold handleError. rewrite Hsplit. unfold exec_CombinedOutput.
  destruct (GoStrings.Contains message "line");
    [destruct (Sscanf_line_column message)|];
    simpl; destruct (String.eqb GOOS "windows"); simpl;
    destruct (env_command _ _ _ _) as [out [e|]]; reflexivity.
Qed.

(** ** What each call does to the log *)

Section Calls.

Context {platform : GoPlatform} (env : Env).

Lemma os_Stat_run path : returns_logging (os_Stat path) [].
Proof.
  intros w. unfold os_Stat. destruct (w_fs w !! path); eauto.
Qed.

Lemma os_ReadFile_run path : returns_logging (os_ReadFile path) [].
Proof.
  intros w. unfold os_ReadFile. destruct (w_fs w !! path) as [[]|]; eauto.
Qed.

Lemma os_WriteFile_run path data : returns_logging (os_WriteFile path data) [].
Proof.
  intros w. unfold os_WriteFile.
  destruct (w_fs w !! path) as [[]|]; eexists _, _; split_and!; eauto.
Qed.

Lemma os_Mkdir_run path : returns_logging (os_Mkdir path) [].
Proof.
  intros w. unfold os_Mkdir.
  destruct (w_fs w !! path); eexists _, _; split_and!; eauto.
Qed.

Lemma os_MkdirAll_returns path : returns_logging (os_MkdirAll path) [].
Proof.
  intros w. unfold os_MkdirAll.
  destruct (w_fs w !! path) as [[]|]; eexists _, _; split_and!; eauto.
Qed.

Lemma os_MkdirTemp_run pattern : returns_logging (os_MkdirTemp env pattern) [].
Proof.
  intros w. unfold os_MkdirTemp.
  destruct (env_mkdirTemp env w) as [name [e|]]; eexists _, _; split_and!; eauto.
Qed.

Lemma findProjectFile_run : returns_logging findProjectFile [].
Proof.
  intros w. unfold findProjectFile.
  destruct (os_Stat_run projectTOML w) as (err & w' & Hrun & Hlog & Hdef).
  msimpl. rewrite Hrun. destruct err; eexists _, _; split_and!; eauto.
Qed.

Lemma loadConfig_run : returns_logging loadConfig [].
Proof.
  intros w. unfold loadConfig.
  destruct (findProjectFile_run w) as (file & w1 & Hrun & Hlog & Hdef).
  msimpl. rewrite Hrun. destruct (String.eqb file "").
  - eexists _, _; split_and!; eauto.
  - destruct (os_ReadFile_run file w1) as ([data err] & w2 & Hrun2 & Hlog2 & Hdef2).
    msimpl. rewrite Hrun2.
    destruct err; eexists _, _; (split_and!; [reflexivity | simpl in *; congruence..]).
Qed.

Lemma copyFile_run src dst : returns_logging (copyFile src dst) [].
Proof.
  intros w. unfold copyFile.
  destruct (os_ReadFile_run src w) as ([data err] & w1 & Hrun & Hlog & Hdef).
  msimpl. rewrite Hrun. destruct err.
  - eexists _, _; split_and!; eauto.
  - destruct (os_WriteFile_run dst data w1) as (err & w2 & Hrun2 & Hlog2 & Hdef2).
    rewrite Hrun2. eexists _, _; (split_and!; [reflexivity | simpl in *; congruence..]).
Qed.

Lemma walk_entries_run entries fn :
  (forall entry, returns_logging (fn entry) []) ->
  returns_logging (walk_entries entries fn) [].
Proof.
  intros Hfn. induction entries as [|entry rest IH]; intros w; simpl.
  - eexists _, _; split_and!; eauto.
  - destruct (Hfn entry w) as (err & w1 & Hrun & Hlog & Hdef).
    rewrite Hrun. destruct err.
    + eexists _, _; split_and!; eauto.
    + destruct (IH w1) as (err & w2 & Hrun2 & Hlog2 & Hdef2).
      rewrite Hrun2. eexists _, _; (split_and!; [reflexivity | simpl in *; congruence..]).
Qed.

Lemma copyDir_run srcDir dstDir : returns_logging (copyDir env srcDir dstDir) [].
Proof.
  intros w. unfold copyDir, filepath_Walk. apply walk_entries_run.
  intros entry w0. destruct (we_err entry).
  - eexists _, _; split_and!; eauto.
  - destruct (filepath_Rel srcDir (we_path entry)) as [relPath [e|]].
    + eexists _, _; split_and!; eauto.
    + destruct (we_isDir entry); [apply os_Mkdir_run | apply copyFile_run].
Qed.

Lemma downloadIndex_run : returns_logging (downloadIndex env) [EvHttpGet indexURL].
Proof.
  intros w. unfold downloadIndex, http_Get. msimpl.
  destruct (env_http env w indexURL) as [e|status data [e|]];
    eexists _, _; split_and!; eauto.
Qed.

Lemma downloadWithProgress_returns url target :
  returns_logging (downloadWithProgress env url target) [EvHttpGet url].
Proof.
  intros w. unfold downloadWithProgress, http_Get, os_Create, io_Copy. msimpl.
  destruct (env_http env w url) as [e|status body rdErr].
  - eexists _, _; split_and!; eauto.
  - msimpl. destruct (w_fs w !! target) as [[data|]|]; msimpl;
      try rewrite lookup_insert_eq; eexists _, _; split_and!; eauto.
Qed.

Lemma handleError_run binPath sourceFile errorMsg :
  forall w, exists lvl out name args w',
    handleError env binPath sourceFile errorMsg w = (Ret tt, w') /\
    w_log w' =
      EvPrint lvl [out] :: EvCommand name args ::
      EvPrint LError ["Error occurred. Running diagnostic..."] :: w_log w /\
    w_defers w' = w_defers w.
Proof.
  intros w. unfold handleError, exec_CombinedOutput.
  destruct (GoStrings.Split errorMsg "010") as [|message rest];
    [|destruct (GoStrings.Contains message "line");
      [destruct (Sscanf_line_column message)|]];
    msimpl; destruct (env_command _ _ _ _) as [out [e|]];
    eexists _, _, _, _, _; split_and!; eauto.
Qed.

Lemma execInContainer_run conn containerID cmd :
  forall w, exists r out exit err w',
    execInContainer env conn containerID cmd w = (Ret (out, exit, err), w') /\
    out = outcome_output r /\
    failed exit err = outcome_failed r /\
    w_log w' = EvExec conn containerID cmd r :: w_log w /\
    w_defers w' = w_defers w.
Proof.
  intros w. unfold execInContainer, containers_Exec. msimpl.
  destruct (env_exec env w conn containerID cmd) as [r fs'].
  exists r. destruct r; msimpl; eexists _, _, _, _; split_and!; reflexivity.
Qed.

End Calls.

(** ** One translation unit *)

Section Unit.

Context {platform : GoPlatform} (env : Env).

Lemma grown_app P base log :
  grown P base log -> exists new, log = (new ++ base)%list /\ Forall P new.
Proof.
  induction 1 as [|e log He _ (new & -> & Hnew)].
  - by exists [].
  - exists (e :: new). split; [done|]. by constructor.
Qed.

Lemma grown_running id base log :
  phase base = Running id -> grown (keeps_running id) base log ->
  phase log = Running id.
Proof.
  intros Hbase. induction 1 as [|e log He _ IH]; [done|].
  simpl. by rewrite IH.
Qed.

Lemma keeps_running_not_failed id e : keeps_running id e -> exec_failed e = false.
Proof.
  unfold keeps_running. destruct e as [| | | | | | | |conn id' cmd r|]; try done.
  simpl. destruct (String.eqb id' id); [|done].
  by destruct (outcome_failed r).
Qed.

(** Close a goal [keeps_running id e] for a report or a command known to
    have succeeded. *)
Ltac keeps :=
  unfold keeps_running; simpl; rewrite ?String.eqb_refl;
  repeat match goal with
         | H : outcome_failed _ = false |- _ => rewrite H
         end;
  reflexivity.

Ltac grow :=
  repeat match goal with
         | H : w_log _ = _ |- _ => rewrite H
         end;
  repeat first [ apply grown_base | apply grown_event; [keeps|] ].

(** One command of a unit: it fails and the reporter runs on its output,
    or it succeeds and the unit goes on. *)
Ltac stage binPath src :=
  msimpl;
  lazymatch goal with
  | |- context [execInContainer env ?conn ?id ?cmd ?w] =>
      let r := fresh "r" in
      let out := fresh "out" in
      let exit := fresh "exit" in
      let err := fresh "err" in
      let w' := fresh "w" in
      let Hrun := fresh "Hrun" in
      let Hfail := fresh "Hfail" in
      let Hlog := fresh "Hlog" in
      let Hdef := fresh "Hdef" in
      let Hr := fresh "Hr" in
      destruct (execInContainer_run env conn id cmd w)
        as (r & out & exit & err & w' & Hrun & -> & Hfail & Hlog & Hdef);
      rewrite Hrun; clear Hrun; msimpl; rewrite Hfail; clear Hfail;
      destruct (outcome_failed r) eqn:Hr;
      [ let lvl := fresh "lvl" in
        let out' := fresh "out" in
        let name := fresh "name" in
        let args := fresh "args" in
        let w'' := fresh "w" in
        let Hrep := fresh "Hrep" in
        let Hlog' := fresh "Hlog" in
        let Hdef' := fresh "Hdef" in
        destruct (handleError_run env binPath src (outcome_output r) w')
          as (lvl & out' & name & args & w'' & Hrep & Hlog' & Hdef');
        msimpl; rewrite Hrep; msimpl;
        eexists _, _; split; [reflexivity|]; split; [congruence|];
        exists cmd, r, (w_log w), src, w';
        split_and!;
        [ by rewrite Hlog | grow | done | done
        | eexists _, _, _, _; exact Hlog' | eauto ]
      | msimpl ]
  end.

Lemma compileSource_shape binPath conn containerID input output includeFlags
    ext tempDir (w : World) :
  exists r w',
    compileSourceInContainer env binPath conn containerID input output
      includeFlags ext tempDir w = (Ret r, w') /\
    w_defers w' = w_defers w /\
    match r with
    | None => grown (keeps_running containerID) (w_log w) (w_log w')
    | Some _ =>
        exists cmd o prior src w1,
          w_log w1 = EvExec conn containerID cmd o :: prior /\
          grown (keeps_running containerID) (w_log w) prior /\
          outcome_failed o = true /\
          handleError env binPath src (outcome_output o) w1 = (Ret tt, w') /\
          (exists lvl out name args,
             w_log w' =
               EvPrint lvl [out] :: EvCommand name args ::
               EvPrint LError ["Error occurred. Running diagnostic..."] ::
               w_log w1) /\
          (src = GoStrings.Replace1 input "/work" tempDir \/
           src = GoStrings.Replace1 (input +:+ ".pre") "/work" tempDir)
    end.
Proof.
  unfold compileSourceInContainer. msimpl.
  set (w0 := {| w_fs := w_fs w;
                w_log := EvPrint LSection ["Compiling source:"; input] :: w_log w;
                w_defers := w_defers w |}).
  assert (Hlog0 : w_log w0 = EvPrint LSection ["Compiling source:"; input] :: w_log w)
    by done.
  assert (Hdef0 : w_defers w0 = w_defers w) by done.
  clearbody w0.
  destruct (String.eqb ext ".vira");
    [|destruct (String.eqb ext ".c"); [|destruct (String.eqb ext ".cpp")]].
  - stage binPath (GoStrings.Replace1 input "/work" tempDir).
    stage binPath (GoStrings.Replace1 (input +:+ ".pre") "/work" tempDir).
    stage binPath (GoStrings.Replace1 (input +:+ ".pre") "/work" tempDir).
    eexists _, _. split; [reflexivity|]. split; [simpl; congruence|].
    simpl. grow.
  - stage binPath (GoStrings.Replace1 input "/work" tempDir).
    eexists _, _. split; [reflexivity|]. split; [simpl; congruence|].
    simpl. grow.
  - stage binPath (GoStrings.Replace1 input "/work" tempDir).
    eexists _, _. split; [reflexivity|]. split; [simpl; congruence|].
    simpl. grow.
  - eexists _, _. split; [reflexivity|]. split; [congruence|]. grow.
Qed.

End Unit.

(** ** The build follows the session protocol *)

Section Protocol.

Context {platform : GoPlatform} (env : Env).

(** Run the call that is next in the goal, and name what it returns (with
    the pattern given) and the world it leaves. *)
Tactic Notation "run" constr(L) "as" simple_intropattern(res) :=
  let w' := fresh "w" in
  let Hrun := fresh "Hrun" in
  let Hlog := fresh "Hlog" in
  let Hdef := fresh "Hdef" in
  destruct L as (res & w' & Hrun & Hlog & Hdef);
  rewrite Hrun; clear Hrun; simpl in Hlog; msimpl.

Tactic Notation "run_call" "as" simple_intropattern(res) :=
  msimpl;
  lazymatch goal with
  | |- context [os_MkdirAll ?p ?w] => run (os_MkdirAll_returns p w) as res
  | |- context [os_Stat ?p ?w] => run (os_Stat_run p w) as res
  | |- context [os_MkdirTemp ?e ?p ?w] => run (os_MkdirTemp_run e p w) as res
  | |- context [loadConfig ?w] => run (loadConfig_run w) as res
  | |- context [findProjectFile ?w] => run (findProjectFile_run w) as res
  | |- context [copyFile ?s ?d ?w] => run (copyFile_run s d w) as res
  | |- context [copyDir ?e ?s ?d ?w] => run (copyDir_run e s d w) as res
  | |- context [downloadIndex ?e ?w] => run (downloadIndex_run e w) as res
  | |- context [downloadWithProgress ?e ?u ?t ?w] =>
      run (downloadWithProgress_returns e u t w) as res
  end.

(** Rewrite the log and the deferred calls of the final world down to those
    of the first one, and evaluate the phase. *)
Ltac settle :=
  repeat match goal with
         | H : w_log _ = _ |- _ => rewrite H; clear H
         | H : w_defers _ = _ |- _ => rewrite H; clear H
         end;
  repeat progress
    (simpl; rewrite ?String.eqb_refl;
     repeat match goal with
            | H : phase _ = _ |- _ => rewrite H
            | H : outcome_failed _ = _ |- _ => rewrite H
            end);
  auto.

Lemma compileSource_protocol binPath conn id input output includeFlags ext tempDir w :
  phase (w_log w) = Running id ->
  exists r w',
    compileSourceInContainer env binPath conn id input output includeFlags
      ext tempDir w = (Ret r, w') /\
    w_defers w' = w_defers w /\
    match r with
    | None => phase (w_log w') = Running id
    | Some _ => exists since, phase (w_log w') = Failed id since /\ reported since
    end.
Proof.
  intros Hphase.
  destruct (compileSource_shape env binPath conn id input output includeFlags
              ext tempDir w) as (r & w' & Hrun & Hdef & Hshape).
  exists r, w'. split_and!; [done | done |]. destruct r as [e|].
  - destruct Hshape
      as (cmd & o & prior & src & w1 & Hlog1 & Hprior & Ho & _ & Hrep & _).
    destruct Hrep as (lvl & out & name & args & Hlog').
    pose proof (grown_running id _ _ Hphase Hprior) as Hrunning.
    destruct lvl; eexists; rewrite Hlog', Hlog1; simpl; rewrite Hrunning; simpl;
      rewrite String.eqb_refl, Ho; simpl; (split; [reflexivity | exact I]).
  - by apply (grown_running id (w_log w)).
Qed.

Lemma ensure_protocol root name version id w :
  phase (w_log w) = Running id ->
  match compileProject_ensure env root name version w with
  | (Ret _, w') => phase (w_log w') = Running id /\ w_defers w' = w_defers w
  | (Exit code, w') => code = 1 /\ exit_phase (phase (w_log w'))
  end.
Proof.
  intros Hphase. unfold compileProject_ensure.
  run_call as [e|]; [settle|].
  run_call as err. destruct (os_IsNotExist err); msimpl; [|split; settle].
  run_call as [e|]; split; settle.
Qed.

Lemma dependency_protocol binPath ctx id tempDir depsDirTemp index name
    versionSpec vars w :
  phase (w_log w) = Running id ->
  match compileProject_dependency env binPath ctx id tempDir depsDirTemp index
          name versionSpec vars w with
  | (Ret _, w') => phase (w_log w') = Running id /\ w_defers w' = w_defers w
  | (Exit code, w') => code = 1 /\ exit_phase (phase (w_log w'))
  end.
Proof.
  intros Hphase. unfold compileProject_dependency.
  destruct vars as [depPaths objectFilesContainer].
  destruct (findLibrary index name) as [lib|]; [|msimpl; split; settle].
  destruct (resolveVersion (Library_Versions lib) versionSpec) as [version|];
    [|msimpl; split; settle].
  msimpl.
  pose proof (ensure_protocol depsDirTemp name version id w Hphase) as Hensure.
  destruct (compileProject_ensure env depsDirTemp name version w)
    as [[[[depPath fileName] targetFile]|code] w1]; [|done].
  destruct Hensure as [Hphase1 Hdef1].
  destruct (_ || _); msimpl; [|done].
  destruct (compileSource_protocol binPath ctx id
              (GoStrings.Replace1 targetFile tempDir "/work")
              (GoStrings.Replace1 depPath tempDir "/work" +:+ "/lib.o") []
              (strings_ToLower (filepath_Ext fileName)) tempDir w1 Hphase1)
    as (r & w2 & Hrun & Hdef2 & Hr).
  rewrite Hrun. destruct r as [e|]; msimpl.
  - destruct Hr as (since & -> & Hrep). done.
  - split; [done | congruence].
Qed.

Lemma dependencies_protocol binPath ctx id tempDir depsDirTemp index deps :
  forall vars w,
    phase (w_log w) = Running id ->
    match compileProject_dependencies env binPath ctx id tempDir depsDirTemp
            index deps vars w with
    | (Ret _, w') => phase (w_log w') = Running id /\ w_defers w' = w_defers w
    | (Exit code, w') => code = 1 /\ exit_phase (phase (w_log w'))
    end.
Proof.
  induction deps as [|[name versionSpec] rest IH]; intros vars w Hphase; simpl.
  - done.
  - pose proof (dependency_protocol binPath ctx id tempDir depsDirTemp index
                  name versionSpec vars w Hphase) as Hdep.
    destruct (compileProject_dependency env binPath ctx id tempDir depsDirTemp
                index name versionSpec vars w) as [[vars'|code] w1]; [|done].
    destruct Hdep as [Hphase1 Hdef1].
    specialize (IH vars' w1 Hphase1).
    destruct (compileProject_dependencies env binPath ctx id tempDir
                depsDirTemp index rest vars' w1) as [[vars''|code] w2]; [|done].
    destruct IH. split; [done | congruence].
Qed.

Ltac run_exec :=
  msimpl;
  lazymatch goal with
  | |- context [execInContainer env ?conn ?id ?cmd ?w] =>
      let r := fresh "r" in
      let out := fresh "out" in
      let exit := fresh "exit" in
      let err := fresh "err" in
      let w' := fresh "w" in
      let Hrun := fresh "Hrun" in
      let Hfail := fresh "Hfail" in
      let Hlog := fresh "Hlog" in
      let Hdef := fresh "Hdef" in
      let Hr := fresh "Hr" in
      destruct (execInContainer_run env conn id cmd w)
        as (r & out & exit & err & w' & Hrun & -> & Hfail & Hlog & Hdef);
      rewrite Hrun; clear Hrun; msimpl; rewrite Hfail; clear Hfail;
      destruct (outcome_failed r) eqn:Hr; msimpl
  end.

Lemma inSandbox_protocol binPath ctx conn id tempDir depsDirTemp config index w :
  phase (w_log w) = Running id ->
  match compileProject_inSandbox env binPath ctx conn id tempDir depsDirTemp
          config index w with
  | (Ret _, w') => phase (w_log w') = Running id /\ w_defers w' = w_defers w
  | (Exit code, w') => code = 1 /\ exit_phase (phase (w_log w'))
  end.
Proof.
  intros Hphase. unfold compileProject_inSandbox.
  run_exec; [split; settle|].
  run_exec; [split; settle|].
  assert (Hphase1 : phase (w_log w1) = Running id) by settle.
  pose proof (dependencies_protocol binPath ctx id tempDir depsDirTemp index
                (Config_Dependencies config) ([], []) w1 Hphase1) as Hdeps.
  destruct (compileProject_dependencies env binPath ctx id tempDir depsDirTemp
              index (Config_Dependencies config) ([], []) w1)
    as [[[depPaths objectFilesContainer]|code] w2]; [|done].
  destruct Hdeps as [Hphase2 Hdef2]. msimpl.
  destruct (compileSource_protocol binPath ctx id "/work/src/main.vira"
              "/work/main.o"
              (map (fun depPath => "-I" +:+ GoStrings.Replace1 depPath tempDir "/work")
                 depPaths)
              ".vira" tempDir w2 Hphase2)
    as (r1 & w3 & Hrun3 & Hdef3 & Hr1).
  rewrite Hrun3. destruct r1 as [e|]; msimpl.
  { destruct Hr1 as (since & -> & Hrep). done. }
  run_exec; [split; settle|].
  run_call as [e|]; [split; settle|].
  run_call as [e|]; split; settle.
Qed.

(** Every run of [compileProject] from a log without a session ends in one
    of two ways: it returns, and the session has been stopped and then
    removed; or it exits with status 1 in a phase in which the session, if
    there is one, has been neither stopped nor removed. *)
Lemma compileProject_protocol binPath w :
  phase (w_log w) = Idle ->
  match compileProject env binPath w with
  | (Ret _, w') => exists id, phase (w_log w') = Removed id
  | (Exit code, w') => code = 1 /\ exit_phase (phase (w_log w'))
  end.
Proof.
  intros Hphase. unfold compileProject, with_defers. msimpl.
  run_call as [config [e|]]; [split; settle|].
  run_call as [tempDir [e|]]; [split; settle|].
  unfold defer at 1. msimpl.
  run_call as projectFile.
  destruct (String.eqb projectFile ""); msimpl; [split; settle|].
  run_call as [e|]; [split; settle|].
  run_call as [e|]; [split; settle|].
  run_call as [e|]; [split; settle|].
  run_call as [index [e|]]; [split; settle|].
  unfold bindings_NewConnection at 1.
  destruct (env_newConnection env _ _) as [e|]; msimpl; [split; settle|].
  unfold images_Pull at 1. msimpl.
  destruct (env_pull env _ _) as [e|]; msimpl; [split; settle|].
  unfold containers_CreateWithSpec at 1.
  destruct (env_create env _ _) as [id [e|]]; msimpl; [split; settle|].
  unfold containers_Start at 1. msimpl.
  destruct (env_start env _ _) as [e|]; msimpl; [split; settle|].
  unfold defer at 1. msimpl.
  match goal with
  | |- context [compileProject_inSandbox env ?b ?ctx ?conn ?i ?t ?d ?c ?ix ?w0] =>
      assert (Hstart : phase (w_log w0) = Running id) by settle;
      pose proof (inSandbox_protocol b ctx conn i t d c ix w0 Hstart) as Hin;
      destruct (compileProject_inSandbox env b ctx conn i t d c ix w0)
        as [[[]|code] w']
  end.
  - destruct Hin as [Hrunning Hdefers]. simpl in Hdefers. rewrite Hdefers.
    repeat match goal with
           | H : w_defers _ = _ |- _ => rewrite H; clear H
           end.
    unfold run_all_deferred, run_deferred, containers_Stop, containers_Remove,
      os_RemoveAll.
    msimpl. exists id. simpl. rewrite Hrunning. simpl.
    rewrite String.eqb_refl. simpl. by rewrite String.eqb_refl.
  - exact Hin.
Qed.

End Protocol.

(** ** What a phase says about the log *)

(** Outside [Failed] and [Bad], no command in the log has failed. *)
Lemma phase_no_failure log :
  match phase log with Failed _ _ | Bad => False | _ => True end ->
  Forall (fun e => exec_failed e = false) log.
Proof.
  induction log as [|e older IH]; [by constructor|]. simpl.
  destruct (phase older) eqn:Hp; intros Hok;
    try (constructor; [|by apply IH]);
    destruct e; simpl in *; try done;
    repeat case_match; simpl in *; try done.
Qed.

(** In [Failed], the log is the events since the failure, the failed
    command, and a log that left the session running. *)
Lemma phase_Failed log :
  forall id since,
    phase log = Failed id since ->
    exists e older,
      log = (since ++ e :: older)%list /\
      exec_failed e = true /\
      Forall (fun e' => exec_failed e' = false) since /\
      phase older = Running id.
Proof.
  induction log as [|e older IH]; [done|]. simpl. intros id since.
  destruct (phase older) eqn:Hp; destruct e; simpl; try done;
    repeat case_match; try done; intros [= <- <-].
  1: { eexists _, _. split_and!; [reflexivity | done | constructor | done]. }
  all: destruct (IH _ _ eq_refl) as (e' & older' & -> & He' & Hsince & Hrun);
    exists e', older'; split_and!; auto.
Qed.

(** A list splits in one way only around its single element with [P]. *)
Lemma split_unique (P : Event -> bool) l1 a r1 l2 b r2 :
  (l1 ++ a :: r1 = l2 ++ b :: r2)%list ->
  P a = true ->
  Forall (fun e => P e = false) l2 ->
  Forall (fun e => P e = false) r2 ->
  l1 = l2 /\ a = b /\ r1 = r2.
Proof.
  revert l2. induction l1 as [|x l1 IH]; intros [|y l2]; simpl;
    intros [= -> Heq] Ha Hl2 Hr2.
  - done.
  - apply Forall_cons in Hl2 as [Hy _]. congruence.
  - rewrite Forall_forall in Hr2.
    rewrite (Hr2 a) in Ha; [done|]. apply list_elem_of_In.
    rewrite <- Heq. apply in_or_app. right. by left.
  - apply Forall_cons in Hl2 as [_ Hl2].
    destruct (IH l2 Heq Ha Hl2 Hr2) as (-> & -> & ->). done.
Qed.


(** A session that is running was created and started. *)
Lemma phase_session log :
  match phase log with
  | Idle | Bad => True
  | Created id => exists s, In (EvCreate s id None) log
  | Running id | Failed id _ | Unresolved id | Stopped id | Removed id =>
      exists s, In (EvCreate s id None) log /\ In (EvStart id None) log
  end.
Proof.
  induction log as [|e older IH]; [done|]. simpl.
  destruct (phase older) eqn:Hp; destruct e; simpl; try done;
    repeat case_match; simpl; try done;
    repeat match goal with
           | H : String.eqb _ _ = true |- _ => apply String.eqb_eq in H; subst
           | H : exists _, _ |- _ => destruct H
           | H : _ /\ _ |- _ => destruct H
           end;
    simplify_eq; eauto 10.
Qed.

(** The session is stopped and removed once each in [Removed], and not at
    all in the phases in which a run may exit. *)
Lemma phase_teardown log :
  let stops := length (List.filter is_stop log) in
  let removes := length (List.filter is_remove log) in
  match phase log with
  | Bad => True
  | Stopped _ => stops = 1%nat /\ removes = 0%nat
  | Removed _ => stops = 1%nat /\ removes = 1%nat
  | _ => stops = 0%nat /\ removes = 0%nat
  end.
Proof.
  induction log as [|e older IH]; [done|]. simpl in *.
  destruct (phase older) eqn:Hp; destruct e; simpl; try done;
    repeat case_match; simpl; try done;
    destruct IH as [-> ->]; done.
Qed.

(** ** Units of an unrecognised kind *)

(** C10: for every dependency artifact whose lowercased file extension is
    none of .vira, .c and .cpp, the per-unit compilation function returns
    success without running a command (it only prints its heading), and in
    the loop over the dependencies nothing is run for it beyond making the
    artifact present: its directory joins the include paths, and the list
    of object files to link is unchanged. No error is reported. *)
Theorem unrecognised_extension_is_skipped {platform : GoPlatform} (env : Env)
    (binPath : string) :
  (forall conn containerID input output includeFlags ext tempDir w,
     ext <> ".vira" -> ext <> ".c" -> ext <> ".cpp" ->
     compileSourceInContainer env binPath conn containerID input output
       includeFlags ext tempDir w =
     (Ret None, add_event (EvPrint LSection ["Compiling source:"; input]) w)) /\
  (forall ctx containerID tempDir depsDirTemp index name versionSpec
          depPaths objectFilesContainer lib version w,
     findLibrary index name = Some lib ->
     resolveVersion (Library_Versions lib) versionSpec = Some version ->
     let ext := strings_ToLower (filepath_Ext (filepath_Base (Version_URL version))) in
     ext <> ".vira" -> ext <> ".c" -> ext <> ".cpp" ->
     compileProject_dependency env binPath ctx containerID tempDir depsDirTemp
       index name versionSpec (depPaths, objectFilesContainer) w =
     match compileProject_ensure env depsDirTemp name version w with
     | (Ret (depPath, _, _), w') =>
         (Ret ((depPaths ++ [depPath])%list, objectFilesContainer), w')
     | (Exit code, w') => (Exit code, w')
     end).
Proof.
  split.
  - intros conn containerID input output includeFlags ext tempDir w Hv Hc Hcpp.
    unfold compileSourceInContainer.
    apply String.eqb_neq in Hv, Hc, Hcpp. rewrite Hv, Hc, Hcpp. reflexivity.
  - intros ctx containerID tempDir depsDirTemp index name versionSpec depPaths
      objectFilesContainer lib version w Hlib Hversion ext Hv Hc Hcpp.
    unfold compileProject_dependency. rewrite Hlib, Hversion. msimpl.
    destruct (compileProject_ensure env depsDirTemp name version w)
      as [[r|code] w'] eqn:Hensure; [|reflexivity].
    destruct (ensure_returns env depsDirTemp name version w r w' Hensure)
      as (-> & _). fold ext.
    apply String.eqb_neq in Hv, Hc, Hcpp. rewrite Hv, Hc, Hcpp. reflexivity.
Qed.

Lemma unrecognised_extension_is_skipped_witness :
  let platform := Build.platform Build.documented in
  let env := Build.env Build.documented in
  let w := mkWorld ∅ [] [] in
  @compileSourceInContainer platform env "/usr/lib/vira-lang/bin" ctxBackground
    "c0ffee" "/work/.virus_deps/notes/0.3.0/NOTES.TXT"
    "/work/.virus_deps/notes/0.3.0/lib.o" [] ".txt" Build.tempDir w =
  (Ret None,
   add_event
     (EvPrint LSection ["Compiling source:"; "/work/.virus_deps/notes/0.3.0/NOTES.TXT"])
     w) /\
  fst (@compileProject_dependency platform env "/usr/lib/vira-lang/bin"
         ctxBackground "c0ffee" Build.tempDir "/tmp/virus-build-1/.virus_deps"
         (Build.in_catalog Build.documented) "notes" "*" ([], []) w) =
  Ret (["/tmp/virus-build-1/.virus_deps/notes/0.3.0"], []).
Proof.
  intros platform env w.
  destruct (@unrecognised_extension_is_skipped platform env "/usr/lib/vira-lang/bin")
    as [Hunit Hloop].
  split.
  - apply Hunit; discriminate.
  - rewrite (Hloop ctxBackground "c0ffee" Build.tempDir
               "/tmp/virus-build-1/.virus_deps"
               (Build.in_catalog Build.documented) "notes" "*" [] []
               (mkLibrary "notes" [Build.notes]) Build.notes w);
      [vm_compute; reflexivity | reflexivity | reflexivity
      | vm_compute; discriminate..].
Defined.

(** ** Failures *)

Section Failures.

Context {platform : GoPlatform} (env : Env).

(** A run that starts with an empty log and in which a command failed:
    the run exits with status 1, the failed command is followed by its
    report only, and every command before it succeeded. *)
Lemma failed_command_ends_build binPath w r w' later e older :
  w_log w = [] ->
  compileProject env binPath w = (r, w') ->
  w_log w' = (later ++ e :: older)%list ->
  exec_failed e = true ->
  r = Exit 1 /\ reported later /\ Forall (fun e' => exec_failed e' = false) older.
Proof.
  intros Hstart Hrun Hlog He.
  pose proof (compileProject_protocol env binPath w) as Hprot.
  rewrite Hstart, Hrun in Hprot. specialize (Hprot eq_refl).
  assert (Hfailed : ~ Forall (fun e' => exec_failed e' = false) (w_log w')).
  { rewrite Hlog, Forall_app, Forall_cons. intros (_ & He' & _). congruence. }
  destruct r as [[]|code].
  - destruct Hprot as [id Hphase]. destruct Hfailed.
    apply phase_no_failure. by rewrite Hphase.
  - destruct Hprot as [-> Hexit].
    destruct (phase (w_log w')) as [| | |id since| | | |] eqn:Hphase;
      try (destruct Hfailed; apply phase_no_failure; by rewrite Hphase);
      try done.
    destruct (phase_Failed _ _ _ Hphase)
      as (e' & older' & Hlog' & He' & Hsince & Hrunning).
    assert (Holder : Forall (fun e0 => exec_failed e0 = false) older').
    { apply phase_no_failure. by rewrite Hrunning. }
    rewrite Hlog in Hlog'.
    destruct (split_unique exec_failed _ _ _ _ _ _ Hlog' He Hsince Holder)
      as (-> & -> & ->).
    done.
Qed.

(** Every run that starts with an empty log stops and removes the session
    exactly once if it returns, and never if it exits. *)
Lemma teardown_runs_only_on_return binPath w r w' :
  w_log w = [] ->
  compileProject env binPath w = (r, w') ->
  let stops := length (List.filter is_stop (w_log w')) in
  let removes := length (List.filter is_remove (w_log w')) in
  match r with
  | Ret _ => stops = 1%nat /\ removes = 1%nat
  | Exit _ => stops = 0%nat /\ removes = 0%nat
  end.
Proof.
  intros Hstart Hrun.
  pose proof (compileProject_protocol env binPath w) as Hprot.
  rewrite Hstart, Hrun in Hprot. specialize (Hprot eq_refl).
  pose proof (phase_teardown (w_log w')) as Hcount. simpl in *.
  destruct r as [[]|code].
  - destruct Hprot as [id Hphase]. by rewrite Hphase in Hcount.
  - destruct Hprot as [_ Hexit].
    by destruct (phase (w_log w')).
Qed.

End Failures.

(** C4: for every translation unit, a stage that fails (an error of the
    exec or a non-zero exit code) is the last command of the unit: the
    commands before it succeeded, its output and the host path of its input
    go to the diagnostic reporter, whose three events are all that follows,
    and the unit returns an error. In particular, when the preprocessor
    fails, it is the only command the unit has run: plsa and the compiler
    are not started. For the whole build: a command that failed is followed
    by its report and by nothing else, the commands before it succeeded and
    the build exits with status 1, so no later unit is compiled. *)
Theorem failed_stage_aborts_unit_and_build {platform : GoPlatform} (env : Env)
    (binPath : string) :
  (forall conn containerID input output includeFlags ext tempDir w,
     exists r w',
       compileSourceInContainer env binPath conn containerID input output
         includeFlags ext tempDir w = (Ret r, w') /\
       match r with
       | None =>
           exists new,
             w_log w' = (new ++ w_log w)%list /\
             Forall (fun e => exec_failed e = false) new
       | Some _ =>
           exists cmd o new src w1,
             w_log w1 = (EvExec conn containerID cmd o :: new ++ w_log w)%list /\
             Forall (fun e => exec_failed e = false) new /\
             outcome_failed o = true /\
             handleError env binPath src (outcome_output o) w1 = (Ret tt, w') /\
             (exists lvl out name args,
                w_log w' =
                  EvPrint lvl [out] :: EvCommand name args ::
                  EvPrint LError ["Error occurred. Running diagnostic..."] ::
                  w_log w1) /\
             (src = GoStrings.Replace1 input "/work" tempDir \/
              src = GoStrings.Replace1 (input +:+ ".pre") "/work" tempDir)
       end) /\
  (forall conn containerID input output includeFlags tempDir w o fs',
     let cmdPre :=
       (("preprocessor" :: includeFlags) ++ [input; input +:+ ".pre"])%list in
     env_exec env (add_event (EvPrint LSection ["Compiling source:"; input]) w)
       conn containerID cmdPre = (o, fs') ->
     outcome_failed o = true ->
     exists w',
       compileSourceInContainer env binPath conn containerID input output
         includeFlags ".vira" tempDir w =
       (Ret (Some (fmt_Errorf ("preprocess failed: " +:+ outcome_output o))), w') /\
       List.filter is_exec (w_log w') =
       EvExec conn containerID cmdPre o :: List.filter is_exec (w_log w)) /\
  (forall w r w' later e older,
     w_log w = [] ->
     compileProject env binPath w = (r, w') ->
     w_log w' = (later ++ e :: older)%list ->
     exec_failed e = true ->
     r = Exit 1 /\ reported later /\
     Forall (fun e' => exec_failed e' = false) older).
Proof.
  split_and!.
  - intros conn containerID input output includeFlags ext tempDir w.
    destruct (compileSource_shape env binPath conn containerID input output
                includeFlags ext tempDir w) as (r & w' & Hrun & _ & Hshape).
    exists r, w'. split; [done|]. destruct r as [err|].
    + destruct Hshape
        as (cmd & o & prior & src & w1 & Hlog1 & Hprior & Ho & Hrep & Hlog' & Hsrc).
      apply grown_app in Hprior as (new & -> & Hnew).
      exists cmd, o, new, src, w1. split_and!; auto.
      eapply Forall_impl; [exact Hnew|]. apply keeps_running_not_failed.
    + apply grown_app in Hshape as (new & Hlog & Hnew).
      exists new. split; [done|].
      eapply Forall_impl; [exact Hnew|]. apply keeps_running_not_failed.
  - intros conn containerID input output includeFlags tempDir w o fs' cmdPre
      Hexec Ho.
    subst cmdPre.
    unfold compileSourceInContainer, execInContainer, containers_Exec.
    rewrite String.eqb_refl. msimpl. rewrite Hexec.
    destruct o as [e|buf e|buf e|buf code]; msimpl;
      simpl in Ho; try (destruct (code =? 0); [discriminate|]);
      cbn [negb]; msimpl;
      match goal with
      | |- context [handleError env binPath ?src ?out ?w1] =>
          destruct (handleError_run env binPath src out w1)
            as (lvl & out' & name & args & w2 & Hrep & Hlog & _)
      end;
      rewrite Hrep; eexists; (split; [reflexivity|]);
      rewrite Hlog; by destruct lvl.
  - apply failed_command_ends_build.
Qed.

Lemma failed_stage_aborts_unit_and_build_witness :
  let run :=
    @compileProject (Build.platform Build.preprocess_fails)
      (Build.env Build.preprocess_fails) "/usr/lib/vira-lang/bin" Build.start in
  w_log Build.start = [] /\
  exec_failed (default (EvStop "") (w_log (snd run) !! 3%nat)) = true /\
  fst run = Exit 1 /\
  reported (take 3 (w_log (snd run))).
Proof.
  intros run.
  destruct (@failed_stage_aborts_unit_and_build
              (Build.platform Build.preprocess_fails)
              (Build.env Build.preprocess_fails) "/usr/lib/vira-lang/bin")
    as (_ & _ & Hbuild).
  destruct (Hbuild Build.start (fst run) (snd run)
              (take 3 (w_log (snd run)))
              (default (EvStop "") (w_log (snd run) !! 3%nat))
              (drop 4 (w_log (snd run))))
    as (Hexit & Hreported & _).
  - reflexivity.
  - apply surjective_pairing.
  - vm_compute. reflexivity.
  - vm_compute. reflexivity.
  - split_and!; [reflexivity | vm_compute; reflexivity | exact Hexit | exact Hreported].
Defined.

(** ** Resolution and the sandbox *)




(** ** Teardown *)

(** C1 does not hold of the code: [os.Exit] ends the process without
    running the deferred Stop and Remove. In this build the session is
    created and started, the preprocessor rejects src/main.vira, and the
    build exits with status 1 without having stopped or removed the
    session. *)
Theorem failed_build_leaves_session_running :
  let run := Build.run Build.preprocess_fails in
  fst run = Exit 1 /\
  (exists s, In (EvCreate s "c0ffee" None) (w_log (snd run))) /\
  In (EvStart "c0ffee" None) (w_log (snd run)) /\
  List.filter is_stop (w_log (snd run)) = [] /\
  List.filter is_remove (w_log (snd run)) = [].
Proof.
  intros run. split_and!.
  - vm_compute. reflexivity.
  - eexists. vm_compute. do 8 right. left. reflexivity.
  - vm_compute. do 7 right. left. reflexivity.
  - vm_compute. reflexivity.
  - vm_compute. reflexivity.
Qed.

(** The build of a project without dependencies in which every command
    succeeds returns, having stopped and removed the session once. *)
Example plain_build_tears_down_once :
  let run := Build.run Build.plain in
  fst run = Ret tt /\
  List.filter is_stop (w_log (snd run)) = [EvStop "c0ffee"] /\
  List.filter is_remove (w_log (snd run)) = [EvRemove "c0ffee"].
Proof.
  intros run. split_and!; vm_compute; reflexivity.
Qed.

(** ** More on the resolver *)

Lemma HasPrefix_refl (s : string) : GoStrings.HasPrefix s s = true.
Proof.
  unfold GoStrings.HasPrefix. induction s as [|c s IH]; [reflexivity|].
  cbn [String.prefix]. by destruct (ascii_dec c c).
Qed.

Lemma resolveVersion_exact versions spec :
  spec <> "*" -> GoStrings.HasPrefix spec "^" = false ->
  resolveVersion versions spec =
  scanDown (fun v => String.eqb (Version_Version v) spec) versions (length versions).
Proof.
  intros Hstar Hcaret. unfold resolveVersion.
  apply String.eqb_neq in Hstar. by rewrite Hstar, Hcaret.
Qed.

(** X1: a spec that is neither "*" nor starts with '^' is matched exactly:
    the result is the version at the greatest index whose string equals the
    spec, and nothing is found if and only if no version string equals it;
    over 1.0.0, 1.2.0, 2.0.0 the spec 9.9.9 finds nothing, and 1.2 does not
    find 1.2.0. *)
Theorem resolve_exact_is_newest_equal (versions : list Version) (spec : string) :
  spec <> "*" -> GoStrings.HasPrefix spec "^" = false ->
  (forall v, resolveVersion versions spec = Some v <->
     exists i, versions !! i = Some v /\ Version_Version v = spec /\
       forall j w, (i < j)%nat -> versions !! j = Some w -> Version_Version w <> spec) /\
  (resolveVersion versions spec = None <->
     forall v, v ∈ versions -> Version_Version v <> spec).
Proof.
  intros Hstar Hcaret. rewrite resolveVersion_exact by done. split.
  - intros v. rewrite scanDown_Some by lia. split.
    + intros (i & Hi & Hv & Hm & Hlater). exists i.
      apply String.eqb_eq in Hm. split_and!; auto.
      intros j w Hj Hw. apply String.eqb_neq. apply (Hlater j); [|done].
      split; [done|]. by apply lookup_lt_Some in Hw.
    + intros (i & Hv & Hm & Hlater). exists i. split_and!; auto.
      * by apply lookup_lt_Some in Hv.
      * by apply String.eqb_eq.
      * intros j w Hj Hw. apply String.eqb_neq. apply (Hlater j); [lia | done].
  - rewrite scanDown_None by lia. split.
    + intros H v [i Hi]%list_elem_of_lookup. apply String.eqb_neq.
      apply (H i); [|done]. by apply lookup_lt_Some in Hi.
    + intros H i w _ Hw. apply String.eqb_neq. apply H.
      apply list_elem_of_lookup. eauto.
Qed.

Lemma resolve_exact_is_newest_equal_witness :
  let versions :=
    [mkVersion "1.0.0" "u1"; mkVersion "1.2.0" "u2"; mkVersion "2.0.0" "u3"] in
  resolveVersion versions "9.9.9" = None /\ resolveVersion versions "1.2" = None.
Proof.
  intros versions. split.
  - apply (resolve_exact_is_newest_equal versions "9.9.9"); [done | done |].
    intros v Hv. repeat (apply elem_of_cons in Hv as [->|Hv]; [discriminate|]).
    by apply elem_of_nil in Hv.
  - apply (resolve_exact_is_newest_equal versions "1.2"); [done | done |].
    intros v Hv. repeat (apply elem_of_cons in Hv as [->|Hv]; [discriminate|]).
    by apply elem_of_nil in Hv.
Defined.

Lemma scanDown_elem p versions n v :
  scanDown p versions n = Some v ->
  exists i, (i < n)%nat /\ versions !! i = Some v /\ p v = true.
Proof.
  induction n as [|n IH]; simpl; [discriminate|].
  destruct (versions !! n) as [x|] eqn:Hx; [|discriminate].
  destruct (p x) eqn:Hp.
  - intros [= <-]. exists n. split_and!; auto.
  - intros (i & Hi & Hv & Hpv)%IH. exists i. split_and!; auto.
Qed.

(** X2: whatever the spec, the resolver only returns a version of the list
    it was given, and one that the spec admits: any version for "*", a
    version whose string starts with the rest of the spec for a spec that
    starts with '^', a version whose string is the spec otherwise. On an
    empty list it finds nothing. *)
Theorem resolve_returns_admitted_member (versions : list Version) (spec : string) :
  (forall v, resolveVersion versions spec = Some v ->
     v ∈ versions /\
     (spec = "*" \/
      (GoStrings.HasPrefix spec "^" = true /\
       GoStrings.HasPrefix (Version_Version v) (GoStrings.slice_from 1 spec) = true) \/
      Version_Version v = spec)) /\
  resolveVersion [] spec = None.
Proof.
  split.
  - intros v. unfold resolveVersion.
    destruct (String.eqb_spec spec "*") as [->|Hstar].
    + destruct (0 <? length versions)%nat; [|discriminate].
      intros Hv. split; [|by left]. apply list_elem_of_lookup. eauto.
    + destruct (GoStrings.HasPrefix spec "^") eqn:Hcaret.
      * intros (i & _ & Hv & Hm)%scanDown_elem.
        split; [apply list_elem_of_lookup; eauto | right; left; done].
      * intros (i & _ & Hv & Hm)%scanDown_elem.
        split; [apply list_elem_of_lookup; eauto|].
        right. right. by apply String.eqb_eq.
  - unfold resolveVersion.
    destruct (String.eqb spec "*"); [done|].
    by destruct (GoStrings.HasPrefix spec "^").
Qed.

Lemma resolve_returns_admitted_member_witness :
  mkVersion "1.2.0" "u2"
    ∈ [mkVersion "1.0.0" "u1"; mkVersion "1.2.0" "u2"; mkVersion "2.0.0" "u3"].
Proof.
  apply (resolve_returns_admitted_member
           [mkVersion "1.0.0" "u1"; mkVersion "1.2.0" "u2"; mkVersion "2.0.0" "u3"]
           "^1.").
  reflexivity.
Defined.

(** X3: if a spec that is matched exactly finds a version, then the same
    text after a caret finds a version too, the same one or a newer one
    whose string starts with the spec: the caret never resolves to something
    older than the exact match. *)
Theorem caret_not_older_than_exact (versions : list Version) (spec : string) (v : Version) :
  spec <> "*" -> GoStrings.HasPrefix spec "^" = false ->
  resolveVersion versions spec = Some v ->
  exists v' i i',
    resolveVersion versions (String "^" spec) = Some v' /\
    versions !! i = Some v /\ versions !! i' = Some v' /\ (i <= i')%nat /\
    GoStrings.HasPrefix (Version_Version v') spec = true.
Proof.
  intros Hstar Hcaret Hexact.
  rewrite resolveVersion_exact in Hexact by done.
  apply scanDown_Some in Hexact as (i & Hi & Hv & Hm & _); [|lia].
  apply String.eqb_eq in Hm.
  rewrite resolveVersion_caret.
  destruct (scanDown (fun v0 => GoStrings.HasPrefix (Version_Version v0) spec)
              versions (length versions)) as [v'|] eqn:Hscan.
  - apply scanDown_Some in Hscan as (i' & Hi' & Hv' & Hm' & Hlater); [|lia].
    exists v', i, i'. split_and!; auto.
    destruct (decide (i <= i')%nat) as [|Hgt]; [done|].
    pose proof (Hlater i v ltac:(lia) Hv) as Hfalse. simpl in Hfalse.
    rewrite Hm, HasPrefix_refl in Hfalse. discriminate.
  - rewrite scanDown_None in Hscan by lia.
    specialize (Hscan i v Hi Hv). simpl in Hscan.
    rewrite Hm, HasPrefix_refl in Hscan. discriminate.
Qed.

Lemma caret_not_older_than_exact_witness :
  exists v' i i',
    resolveVersion [mkVersion "1.2" "u1"; mkVersion "1.2.5" "u2"] "^1.2" = Some v' /\
    [mkVersion "1.2" "u1"; mkVersion "1.2.5" "u2"] !! i = Some (mkVersion "1.2" "u1") /\
    [mkVersion "1.2" "u1"; mkVersion "1.2.5" "u2"] !! i' = Some v' /\
    (i <= i')%nat /\
    GoStrings.HasPrefix (Version_Version v') "1.2" = true.
Proof.
  apply (caret_not_older_than_exact
           [mkVersion "1.2" "u1"; mkVersion "1.2.5" "u2"] "1.2"
           (mkVersion "1.2" "u1")); [discriminate | reflexivity | reflexivity].
Defined.

Lemma findLibrary_loop_Some libs name lib :
  findLibrary_loop libs name = Some lib <->
  exists i, libs !! i = Some lib /\ Library_Name lib = name /\
    forall j l, (j < i)%nat -> libs !! j = Some l -> Library_Name l <> name.
Proof.
  induction libs as [|x libs IH]; simpl.
  - split; [discriminate | by intros (i & Hi & _)].
  - destruct (String.eqb_spec (Library_Name x) name) as [Heq|Hne].
    + split.
      * intros [= <-]. exists O. split_and!; auto. intros j l Hj. lia.
      * intros ([|i] & Hi & Hn & Hbefore).
        -- simpl in Hi. congruence.
        -- destruct (Hbefore O x); [lia | done | done].
    + rewrite IH. split.
      * intros (i & Hi & Hn & Hbefore). exists (S i). split_and!; auto.
        intros [|j] l Hj Hl; simpl in Hl; [congruence|].
        apply (Hbefore j); [lia | done].
      * intros ([|i] & Hi & Hn & Hbefore); simpl in Hi; [congruence|].
        exists i. split_and!; auto.
        intros j l Hj Hl. apply (Hbefore (S j)); [lia | done].
Qed.

(** X4: the catalog lookup returns the first library of the index that
    bears the name (a later library of the same name is never returned),
    and finds nothing if and only if no library of the index bears it. *)
Theorem findLibrary_returns_first_of_name (index : LibraryIndex) (name : string) :
  (forall lib, findLibrary index name = Some lib <->
     exists i, Libraries index !! i = Some lib /\ Library_Name lib = name /\
       forall j l, (j < i)%nat -> Libraries index !! j = Some l ->
                   Library_Name l <> name) /\
  (findLibrary index name = None <->
     forall lib, lib ∈ Libraries index -> Library_Name lib <> name).
Proof.
  unfold findLibrary. split; [intros lib; apply findLibrary_loop_Some|].
  induction (Libraries index) as [|x libs IH]; simpl.
  - split; [intros _ lib Hin; by apply elem_of_nil in Hin | done].
  - destruct (String.eqb_spec (Library_Name x) name) as [Heq|Hne].
    + split; [discriminate|]. intros H. destruct (H x); [by left | done].
    + rewrite IH. split.
      * intros H lib [->|Hin]%elem_of_cons; [done | by apply H].
      * intros H lib Hin. apply H. by right.
Qed.

(** ** The manifest *)

Section ManifestFacts.

Context {platform : GoPlatform} {codecs : GoCodecs}.

Lemma os_WriteFile_ok path data w :
  w_fs w !! path <> Some Dir ->
  os_WriteFile path data w = (Ret None, set_fs (<[path := File data]> (w_fs w)) w).
Proof.
  intros Hdir. unfold os_WriteFile. by destruct (w_fs w !! path) as [[]|].
Qed.

Lemma loadConfig_toml data w :
  w_fs w !! projectTOML = Some (File data) ->
  loadConfig w = (Ret (toml_Unmarshal data), w).
Proof.
  intros Hfile. unfold loadConfig, findProjectFile, os_Stat, os_ReadFile.
  msimpl. rewrite Hfile. msimpl.
  change (String.eqb projectTOML "") with false. msimpl. by rewrite Hfile.
Qed.

Lemma Cmd_loadConfig_toml data w :
  w_fs w !! projectTOML = Some (File data) ->
  Cmd.loadConfig w = (Ret (toml_Unmarshal data), w).
Proof.
  intros Hfile. unfold Cmd.loadConfig, os_Stat, os_ReadFile.
  msimpl. rewrite Hfile. msimpl. by rewrite Hfile.
Qed.

End ManifestFacts.

(** X5: saving a configuration and loading it again yields what the TOML
    decoder makes of what the TOML encoder produced, so the configuration
    comes back whenever the two are inverse on it; this holds for the
    loader of either build, also when Project.yaml or Project.json exist,
    and whatever Project.toml held before is replaced. If the encoder
    fails, its error is returned and nothing is written. *)
Theorem saveConfig_then_loadConfig {platform : GoPlatform} {codecs : GoCodecs}
    (config : Config) (w : World) :
  (forall data,
     toml_Marshal config = (data, None) ->
     w_fs w !! projectTOML <> Some Dir ->
     exists w',
       saveConfig config w = (Ret None, w') /\
       w_fs w' = <[projectTOML := File data]> (w_fs w) /\
       loadConfig w' = (Ret (toml_Unmarshal data), w') /\
       Cmd.loadConfig w' = (Ret (toml_Unmarshal data), w')) /\
  (forall data e,
     toml_Marshal config = (data, Some e) ->
     saveConfig config w = (Ret (Some e), w)).
Proof.
  split.
  - intros data Hmarshal Hdir. unfold saveConfig. rewrite Hmarshal.
    rewrite os_WriteFile_ok by done. eexists. split_and!; [reflexivity | done | |].
    + apply loadConfig_toml. simpl. by rewrite lookup_insert_eq.
    + apply Cmd_loadConfig_toml. simpl. by rewrite lookup_insert_eq.
  - intros data e Hmarshal. unfold saveConfig. by rewrite Hmarshal.
Qed.


Lemma saveConfig_then_loadConfig_witness :
  exists w',
    @saveConfig Manifests.codecs Manifests.fresh Manifests.used = (Ret None, w') /\
    w_fs w' =
      <[projectTOML := File (Manifests.render Manifests.fresh)]> (w_fs Manifests.used) /\
    @loadConfig Manifests.platform w' = (Ret (Manifests.fresh, None), w') /\
    @Cmd.loadConfig Manifests.platform Manifests.codecs w' =
      (Ret (Manifests.fresh, None), w').
Proof.
  apply (proj1 (@saveConfig_then_loadConfig Manifests.platform Manifests.codecs
                  Manifests.fresh Manifests.used)
           (Manifests.render Manifests.fresh)).
  - reflexivity.
  - vm_compute. discriminate.
Defined.

(** X6: the sandboxed build reads Project.toml only. When Project.toml is a
    file, both builds load the same configuration from it, whatever other
    manifests exist. When nothing is at Project.toml, the sandboxed build
    fails with "no project file found" even if Project.yaml is there,
    from which the build of src/cmd/main.go loads its configuration.
    Neither loader changes anything. *)
Theorem loadConfig_reads_toml_only {platform : GoPlatform} {codecs : GoCodecs}
    (w : World) :
  (forall data,
     w_fs w !! projectTOML = Some (File data) ->
     loadConfig w = (Ret (toml_Unmarshal data), w) /\
     Cmd.loadConfig w = (Ret (toml_Unmarshal data), w)) /\
  (forall data,
     w_fs w !! projectTOML = None ->
     w_fs w !! Cmd.projectYAML = Some (File data) ->
     loadConfig w =
       (Ret (mkConfig (mkPackage "" "") [], Some (fmt_Errorf "no project file found")), w) /\
     Cmd.loadConfig w = (Ret (yaml_Unmarshal data), w)).
Proof.
  split.
  - intros data Hfile. split; [by apply loadConfig_toml | by apply Cmd_loadConfig_toml].
  - intros data Htoml Hyaml. split.
    + unfold loadConfig, findProjectFile, os_Stat. msimpl. by rewrite Htoml.
    + unfold Cmd.loadConfig, os_Stat, os_ReadFile. msimpl.
      rewrite Htoml. msimpl. rewrite Hyaml. msimpl. by rewrite Hyaml.
Qed.


Lemma loadConfig_reads_toml_only_witness :
  @loadConfig Manifests.platform Manifests.yaml_only =
    (Ret (mkConfig (mkPackage "" "") [], Some (fmt_Errorf "no project file found")),
     Manifests.yaml_only) /\
  @Cmd.loadConfig Manifests.platform Manifests.codecs Manifests.yaml_only =
    (Ret (Manifests.fresh, None), Manifests.yaml_only).
Proof.
  apply (proj2 (@loadConfig_reads_toml_only Manifests.platform Manifests.codecs
                  Manifests.yaml_only) Manifests.yaml_text).
  - vm_compute. reflexivity.
  - vm_compute. reflexivity.
Defined.

(** X7: the loader of src/cmd/main.go takes the first of Project.toml,
    Project.yaml, Project.json that exists and does not fall back when that
    one cannot be read: with a directory at Project.toml it returns the
    read error although Project.yaml is a readable manifest. With none of
    the three it returns "no project file found". *)
Theorem Cmd_loadConfig_no_fallback {platform : GoPlatform} {codecs : GoCodecs}
    (w : World) :
  (w_fs w !! projectTOML = Some Dir ->
   exists e, Cmd.loadConfig w = (Ret (mkConfig (mkPackage "" "") [], Some e), w)) /\
  (w_fs w !! projectTOML = None ->
   w_fs w !! Cmd.projectYAML = Some Dir ->
   exists e, Cmd.loadConfig w = (Ret (mkConfig (mkPackage "" "") [], Some e), w)) /\
  (forall data,
     w_fs w !! projectTOML = None ->
     w_fs w !! Cmd.projectYAML = None ->
     w_fs w !! Cmd.projectJSON = Some (File data) ->
     Cmd.loadConfig w = (Ret (json_Unmarshal_Config data), w)) /\
  (w_fs w !! projectTOML = None ->
   w_fs w !! Cmd.projectYAML = None ->
   w_fs w !! Cmd.projectJSON = None ->
   Cmd.loadConfig w =
     (Ret (mkConfig (mkPackage "" "") [], Some (fmt_Errorf "no project file found")), w)).
Proof.
  unfold Cmd.loadConfig, os_Stat, os_ReadFile. split_and!.
  - intros Htoml. msimpl. rewrite Htoml. msimpl. rewrite Htoml. eauto.
  - intros Htoml Hyaml. msimpl. rewrite Htoml. msimpl. rewrite Hyaml. msimpl.
    rewrite Hyaml. eauto.
  - intros data Htoml Hyaml Hjson. msimpl. rewrite Htoml. msimpl.
    rewrite Hyaml. msimpl. rewrite Hjson. msimpl. by rewrite Hjson.
  - intros Htoml Hyaml Hjson. msimpl. rewrite Htoml. msimpl.
    rewrite Hyaml. msimpl. by rewrite Hjson.
Qed.


Lemma Cmd_loadConfig_no_fallback_witness :
  exists e,
    @Cmd.loadConfig Manifests.platform Manifests.codecs Manifests.toml_is_dir =
    (Ret (mkConfig (mkPackage "" "") [], Some e), Manifests.toml_is_dir).
Proof.
  apply (proj1 (@Cmd_loadConfig_no_fallback Manifests.platform Manifests.codecs
                  Manifests.toml_is_dir)).
  vm_compute. reflexivity.
Defined.

(** X8: [initProject] replaces what is there: when it returns, Project.toml
    holds the encoding of the default configuration and src/main.vira the
    template, whatever they held before, src is a directory, and no other
    path has changed. *)
Theorem initProject_overwrites {platform : GoPlatform} {codecs : GoCodecs}
    (w : World) (data : string) :
  toml_Marshal (mkConfig (mkPackage "myproject" "0.1.0") []) = (data, None) ->
  w_fs w !! projectTOML <> Some Dir ->
  (forall old, w_fs w !! "src" <> Some (File old)) ->
  w_fs w !! "src/main.vira" <> Some Dir ->
  exists w',
    initProject w = (Ret tt, w') /\
    w_fs w' !! projectTOML = Some (File data) /\
    w_fs w' !! "src" = Some Dir /\
    w_fs w' !! "src/main.vira" = Some (File mainCode) /\
    (forall path,
       path <> projectTOML -> path <> "src" -> path <> "src/main.vira" ->
       w_fs w' !! path = w_fs w !! path).
Proof.
  intros Hmarshal Htoml Hsrc Hmain. unfold initProject. rewrite Hmarshal.
  msimpl. rewrite os_WriteFile_ok by done. msimpl.
  unfold os_MkdirAll. msimpl. rewrite lookup_insert_ne by done.
  destruct (w_fs w !! "src") as [[old|]|] eqn:Hs; [by destruct (Hsrc old) | |];
    msimpl; rewrite os_WriteFile_ok
      by (msimpl; rewrite ?lookup_insert_ne by done; done);
    msimpl; eexists; (split; [reflexivity|]); msimpl; split_and!.
  all: try (intros path H1 H2 H3).
  all: rewrite ?lookup_insert_eq, ?lookup_insert_ne by done; try done.
  all: rewrite ?lookup_insert_eq, ?lookup_insert_ne by done; done.
Qed.


Lemma initProject_overwrites_witness :
  exists w',
    @initProject Manifests.codecs Manifests.used = (Ret tt, w') /\
    w_fs w' !! projectTOML = Some (File (Manifests.render Manifests.fresh)) /\
    w_fs w' !! "src" = Some Dir /\
    w_fs w' !! "src/main.vira" = Some (File mainCode) /\
    (forall path,
       path <> projectTOML -> path <> "src" -> path <> "src/main.vira" ->
       w_fs w' !! path = w_fs Manifests.used !! path).
Proof.
  apply (@initProject_overwrites Manifests.platform Manifests.codecs Manifests.used
           (Manifests.render Manifests.fresh)).
  - reflexivity.
  - vm_compute. discriminate.
  - intros old. vm_compute. discriminate.
  - vm_compute. discriminate.
Defined.

(** X9: [initProject] is not atomic: when a file is in the way of the src
    directory, it exits with status 1 after it has already replaced
    Project.toml, and src/main.vira is not written. *)
Theorem initProject_fails_after_writing_manifest {platform : GoPlatform}
    {codecs : GoCodecs} (w : World) (data old : string) :
  toml_Marshal (mkConfig (mkPackage "myproject" "0.1.0") []) = (data, None) ->
  w_fs w !! projectTOML <> Some Dir ->
  w_fs w !! "src" = Some (File old) ->
  exists w',
    initProject w = (Exit 1, w') /\
    w_fs w' = <[projectTOML := File data]> (w_fs w) /\
    w_log w' =
      EvPrint LError ["Failed to create src dir:"; "mkdir src: not a directory"] ::
      EvPrint LSection ["Initializing Vira project"] :: w_log w.
Proof.
  intros Hmarshal Htoml Hsrc. unfold initProject. rewrite Hmarshal.
  msimpl. rewrite os_WriteFile_ok by done. msimpl.
  unfold os_MkdirAll. msimpl. rewrite lookup_insert_ne by done.
  rewrite Hsrc. msimpl. eexists. split_and!; reflexivity.
Qed.


Lemma initProject_fails_after_writing_manifest_witness :
  exists w',
    @initProject Manifests.codecs Manifests.occupied = (Exit 1, w') /\
    w_fs w' =
      <[projectTOML := File (Manifests.render Manifests.fresh)]>
        (w_fs Manifests.occupied) /\
    w_log w' =
      EvPrint LError ["Failed to create src dir:"; "mkdir src: not a directory"] ::
      EvPrint LSection ["Initializing Vira project"] :: w_log Manifests.occupied.
Proof.
  apply (@initProject_fails_after_writing_manifest Manifests.platform
           Manifests.codecs Manifests.occupied (Manifests.render Manifests.fresh)
           "notes").
  - reflexivity.
  - vm_compute. discriminate.
  - vm_compute. reflexivity.
Defined.

(** ** Downloads and copies *)

(** X10: the download of the library manager creates or changes a file only
    when the response has status 200: with any other status it returns the
    error "status N" and leaves the file system as it is. With status 200,
    for a path in an existing directory that is not itself a directory, it
    replaces what was at the path by the bytes received, also when the
    transfer then breaks off. *)
Theorem downloadFile_needs_status_200 (env : Env) (url path : string) (w : World) :
  (forall status body rdErr,
     env_http env w url = HttpResponse status body rdErr ->
     status <> 200 ->
     Cmd.downloadFile env url path w =
     (Ret (Some (fmt_Errorf ("status " +:+ Sprintf_d status))),
      add_event (EvHttpGet url) w)) /\
  (forall body rdErr,
     env_http env w url = HttpResponse 200 body rdErr ->
     parent_present path w ->
     w_fs w !! path <> Some Dir ->
     Cmd.downloadFile env url path w =
     (Ret rdErr, set_fs (<[path := File body]> (w_fs w)) (add_event (EvHttpGet url) w))) /\
  (forall r w',
     Cmd.downloadFile env url path w = (r, w') ->
     w_fs w' <> w_fs w ->
     exists body rdErr, env_http env w url = HttpResponse 200 body rdErr).
Proof.
  unfold Cmd.downloadFile, http_Get, os_Create, io_Copy. split_and!.
  - intros status body rdErr Hhttp Hstatus. msimpl. rewrite Hhttp.
    apply Z.eqb_neq in Hstatus. by rewrite Hstatus.
  - intros body rdErr Hhttp _ Hdir. msimpl. rewrite Hhttp. simpl.
    destruct (w_fs w !! path) as [[data|]|]; try done; msimpl;
      rewrite lookup_insert_eq; msimpl; by rewrite insert_insert_eq.
  - intros r w'. msimpl.
    destruct (env_http env w url) as [e|status body rdErr]; msimpl.
    + intros [= _ <-]. done.
    + destruct (Z.eqb_spec status 200) as [->|Hne]; simpl.
      * eauto.
      * intros [= _ <-]. done.
Qed.

Lemma downloadFile_needs_status_200_witness :
  let w := mkWorld (<["/usr/lib/vira-lang/libs" := Dir]> ∅) [] [] in
  Cmd.downloadFile (Build.env Build.interrupted)
    "https://example.org/libs/mathlib.vira" "/usr/lib/vira-lang/libs/mathlib-1.0.0.vira"
    w =
  (Ret (Some (ErrOther "unexpected EOF")),
   set_fs (<["/usr/lib/vira-lang/libs/mathlib-1.0.0.vira" := File "par"]> (w_fs w))
     (add_event (EvHttpGet "https://example.org/libs/mathlib.vira") w)).
Proof.
  intros w.
  apply (downloadFile_needs_status_200 (Build.env Build.interrupted)
           "https://example.org/libs/mathlib.vira"
           "/usr/lib/vira-lang/libs/mathlib-1.0.0.vira" w).
  - reflexivity.
  - vm_compute. reflexivity.
  - vm_compute. discriminate.
Defined.




(** X12: [copyDir] needs a destination that does not exist yet: the walk
    starts at the source directory itself, for which the destination path
    is the destination directory, and [os.Mkdir] refuses a path that
    exists. Nothing is copied then. *)
Theorem copyDir_refuses_existing_destination {platform : GoPlatform} (env : Env)
    (srcDir dstDir : string) (w : World) (root : WalkEntry) (rest : list WalkEntry) :
  env_walk env w srcDir = root :: rest ->
  we_path root = srcDir -> we_isDir root = true -> we_err root = None ->
  filepath_Rel srcDir srcDir = (".", None) ->
  filepath_Join [dstDir; "."] = dstDir ->
  is_Some (w_fs w !! dstDir) ->
  copyDir env srcDir dstDir w =
  (Ret (Some (ErrOther ("mkdir " +:+ dstDir +:+ ": file exists"))), w).
Proof.
  intros Hwalk Hpath Hdir Herr Hrel Hjoin [node Hdst].
  unfold copyDir, filepath_Walk. rewrite Hwalk. simpl.
  rewrite Herr, Hpath, Hrel, Hjoin, Hdir. unfold os_Mkdir. by rewrite Hdst.
Qed.


Lemma copyDir_refuses_existing_destination_witness :
  @copyDir (Build.platform Build.plain) (Build.env Build.plain) "src"
    "/tmp/virus-build-1/src" Manifests.copied =
  (Ret (Some (ErrOther "mkdir /tmp/virus-build-1/src: file exists")), Manifests.copied).
Proof.
  apply (@copyDir_refuses_existing_destination (Build.platform Build.plain)
           (Build.env Build.plain) "src" "/tmp/virus-build-1/src" Manifests.copied
           (mkWalkEntry "src" true None) [mkWalkEntry "src/main.vira" false None]).
  - reflexivity.
  - reflexivity.
  - reflexivity.
  - reflexivity.
  - vm_compute. reflexivity.
  - vm_compute. reflexivity.
  - exists Dir. vm_compute. reflexivity.
Defined.

(** ** More on the session *)

Lemma phase_suffix later log : phase (later ++ log) <> Bad -> phase log <> Bad.
Proof.
  induction later as [|e later IH]; [done|]. simpl.
  intros Hok. apply IH. intros Hbad. by rewrite Hbad in Hok.
Qed.

Lemma phase_exec_running conn id cmd o older :
  phase (EvExec conn id cmd o :: older) <> Bad -> phase older = Running id.
Proof.
  simpl. destruct (phase older) as [| |id'| | | | |]; simpl; try done.
  destruct (String.eqb_spec id id') as [->|]; done.
Qed.

Lemma observe_Removed p e id :
  observe p e = Removed id -> p = Stopped id /\ e = EvRemove id.
Proof.
  destruct p, e; simpl; try done; repeat case_match; simpl; try done;
    intros [= <-];
    repeat match goal with
           | H : String.eqb _ _ = true |- _ => apply String.eqb_eq in H; subst
           end; done.
Qed.

Lemma observe_Stopped p e id :
  observe p e = Stopped id -> p = Running id /\ e = EvStop id.
Proof.
  destruct p, e; simpl; try done; repeat case_match; simpl; try done;
    intros [= <-];
    repeat match goal with
           | H : String.eqb _ _ = true |- _ => apply String.eqb_eq in H; subst
           end; done.
Qed.

Lemma phase_Removed log id :
  phase log = Removed id ->
  exists older, log = EvRemove id :: EvStop id :: older /\ phase older = Running id.
Proof.
  destruct log as [|e1 log]; [done|]. simpl.
  intros [Hstopped ->]%observe_Removed.
  destruct log as [|e2 older]; [done|]. simpl in Hstopped.
  apply observe_Stopped in Hstopped as [Hrunning ->]. eauto.
Qed.

Lemma filter_nil_Forall (P : Event -> bool) log :
  length (List.filter P log) = 0%nat -> Forall (fun e => P e = false) log.
Proof.
  induction log as [|e log IH]; [by constructor|]. simpl.
  destruct (P e) eqn:He; [done|]. intros Hlen. constructor; auto.
Qed.

(** While the session is running it has been neither stopped nor removed,
    and no command has failed. *)
Lemma phase_Running_facts log id :
  phase log = Running id ->
  (exists s, In (EvCreate s id None) log) /\
  In (EvStart id None) log /\
  Forall (fun e => is_stop e = false /\ is_remove e = false) log /\
  Forall (fun e => exec_failed e = false) log.
Proof.
  intros Hphase.
  pose proof (phase_session log) as Hsession.
  pose proof (phase_teardown log) as Hcount.
  rewrite Hphase in Hsession, Hcount. simpl in Hcount.
  destruct Hsession as (s & Hcreate & Hstart). destruct Hcount as [Hstop Hremove].
  split_and!; eauto.
  - apply filter_nil_Forall in Hstop, Hremove.
    rewrite Forall_forall in *. intros e He. split; auto.
  - apply phase_no_failure. by rewrite Hphase.
Qed.

(** X13: in every run of the sandboxed build, a command is executed only in
    the container that [CreateWithSpec] returned, after that container was
    created and started without error, before any Stop or Remove, and only
    as long as no earlier command has failed. *)
Theorem commands_run_in_started_session {platform : GoPlatform} (env : Env)
    (binPath : string) (w : World) (r : Outcome unit) (w' : World)
    (later older : list Event) (conn : Context) (id : string)
    (cmd : list string) (o : ExecOutcome) :
  w_log w = [] ->
  compileProject env binPath w = (r, w') ->
  w_log w' = (later ++ EvExec conn id cmd o :: older)%list ->
  (exists s, In (EvCreate s id None) older) /\
  In (EvStart id None) older /\
  Forall (fun e => is_stop e = false /\ is_remove e = false) older /\
  Forall (fun e => exec_failed e = false) older.
Proof.
  intros Hstart Hrun Hlog.
  pose proof (compileProject_protocol env binPath w) as Hprot.
  rewrite Hstart, Hrun in Hprot. specialize (Hprot eq_refl).
  assert (Hok : phase (w_log w') <> Bad).
  { destruct r as [[]|code].
    - destruct Hprot as [id' ->]. done.
    - destruct Hprot as [_ Hexit]. by intros Hbad; rewrite Hbad in Hexit. }
  rewrite Hlog in Hok. apply phase_suffix in Hok.
  apply phase_exec_running in Hok. by apply phase_Running_facts.
Qed.

Lemma commands_run_in_started_session_witness :
  let run :=
    @compileProject (Build.platform Build.preprocess_fails)
      (Build.env Build.preprocess_fails) "/usr/lib/vira-lang/bin" Build.start in
  In (EvStart "c0ffee" None) (drop 6 (w_log (snd run))).
Proof.
  intros run.
  eapply (@commands_run_in_started_session
            (Build.platform Build.preprocess_fails)
            (Build.env Build.preprocess_fails) "/usr/lib/vira-lang/bin"
            Build.start (fst run) (snd run) (take 5 (w_log (snd run)))
            (drop 6 (w_log (snd run)))).
  - reflexivity.
  - apply surjective_pairing.
  - vm_compute. reflexivity.
Defined.

(** X14: every run of the sandboxed build that returns ends with Stop and
    then Remove of the container it created and started; before them the
    session was never stopped or removed and no command failed. Every run
    that does not return exits with status 1 and has called neither Stop
    nor Remove. *)
Theorem returning_build_ends_with_teardown {platform : GoPlatform} (env : Env)
    (binPath : string) (w : World) (r : Outcome unit) (w' : World) :
  w_log w = [] ->
  compileProject env binPath w = (r, w') ->
  match r with
  | Ret _ =>
      exists id older,
        w_log w' = EvRemove id :: EvStop id :: older /\
        (exists s, In (EvCreate s id None) older) /\
        In (EvStart id None) older /\
        Forall (fun e => is_stop e = false /\ is_remove e = false) older /\
        Forall (fun e => exec_failed e = false) older
  | Exit code =>
      code = 1 /\
      Forall (fun e => is_stop e = false /\ is_remove e = false) (w_log w')
  end.
Proof.
  intros Hstart Hrun.
  pose proof (compileProject_protocol env binPath w) as Hprot.
  rewrite Hstart, Hrun in Hprot. specialize (Hprot eq_refl).
  destruct r as [[]|code].
  - destruct Hprot as [id Hphase].
    apply phase_Removed in Hphase as (older & Hlog & Hrunning).
    exists id, older. split; [done|]. by apply phase_Running_facts.
  - destruct Hprot as [-> Hexit]. split; [done|].
    pose proof (phase_teardown (w_log w')) as Hcount. simpl in Hcount.
    assert (Hzero : length (List.filter is_stop (w_log w')) = 0%nat /\
                    length (List.filter is_remove (w_log w')) = 0%nat).
    { by destruct (phase (w_log w')). }
    destruct Hzero as [Hstop Hremove].
    apply filter_nil_Forall in Hstop, Hremove.
    rewrite Forall_forall in *. intros e He. split; auto.
Qed.

Lemma returning_build_ends_with_teardown_witness :
  let run :=
    @compileProject (Build.platform Build.plain) (Build.env Build.plain)
      "/usr/lib/vira-lang/bin" Build.start in
  match fst run with
  | Ret _ =>
      exists id older,
        w_log (snd run) = EvRemove id :: EvStop id :: older /\
        (exists s, In (EvCreate s id None) older) /\
        In (EvStart id None) older /\
        Forall (fun e => is_stop e = false /\ is_remove e = false) older /\
        Forall (fun e => exec_failed e = false) older
  | Exit code =>
      code = 1 /\
      Forall (fun e => is_stop e = false /\ is_remove e = false) (w_log (snd run))
  end.
Proof.
  intros run.
  apply (@returning_build_ends_with_teardown (Build.platform Build.plain)
           (Build.env Build.plain) "/usr/lib/vira-lang/bin" Build.start).
  - reflexivity.
  - apply surjective_pairing.
Defined.

(** ** How the stages, the loop and the link compose *)

Section Composition.

Context {platform : GoPlatform} (env : Env).

(** One command of a unit that is known to return no error *)
Ltac pass binPath :=
  msimpl;
  lazymatch goal with
  | |- context [execInContainer env ?conn ?id ?cmd ?w] =>
      let r := fresh "r" in
      let out := fresh "out" in
      let exit := fresh "exit" in
      let err := fresh "err" in
      let w' := fresh "w" in
      let Hrun := fresh "Hrun" in
      let Hfail := fresh "Hfail" in
      let Hlog := fresh "Hlog" in
      let Hdef := fresh "Hdef" in
      let Hr := fresh "Hr" in
      destruct (execInContainer_run env conn id cmd w)
        as (r & out & exit & err & w' & Hrun & -> & Hfail & Hlog & Hdef);
      rewrite Hrun; clear Hrun; msimpl; rewrite Hfail; clear Hfail;
      destruct (outcome_failed r) eqn:Hr; msimpl;
      [ lazymatch goal with
        | |- context [handleError env binPath ?src ?msg ?w1] =>
            let lvl := fresh "lvl" in
            let out' := fresh "out" in
            let name := fresh "name" in
            let args := fresh "args" in
            let w'' := fresh "w" in
            let Hrep := fresh "Hrep" in
            destruct (handleError_run env binPath src msg w1)
              as (lvl & out' & name & args & w'' & Hrep & _);
            rewrite Hrep; msimpl; discriminate
        end
      | ]
  end.

Lemma compileSource_vira_returns binPath conn id input output includeFlags
    tempDir w w' :
  compileSourceInContainer env binPath conn id input output includeFlags
    ".vira" tempDir w = (Ret None, w') ->
  exists r1 r2 r3,
    outcome_failed r1 = false /\ outcome_failed r2 = false /\
    outcome_failed r3 = false /\
    w_log w' =
      EvPrint LSuccess ["Compilation done"] ::
      EvExec conn id ["compiler"; input +:+ ".pre"; output] r3 ::
      EvPrint LSuccess ["PLSA done"] ::
      EvExec conn id ["plsa"; input +:+ ".pre"] r2 ::
      EvPrint LSuccess ["Preprocessing done"] ::
      EvExec conn id
        (("preprocessor" :: includeFlags) ++ [input; input +:+ ".pre"])%list r1 ::
      EvPrint LSection ["Compiling source:"; input] :: w_log w /\
    w_defers w' = w_defers w.
Proof.
  unfold compileSourceInContainer.
  change (String.eqb ".vira" ".vira") with true. msimpl.
  set (w0 := {| w_fs := w_fs w;
                w_log := EvPrint LSection ["Compiling source:"; input] :: w_log w;
                w_defers := w_defers w |}).
  assert (Hlog0 : w_log w0 = EvPrint LSection ["Compiling source:"; input] :: w_log w)
    by done.
  assert (Hdef0 : w_defers w0 = w_defers w) by done.
  clearbody w0.
  pass binPath. pass binPath. pass binPath.
  intros [= <-]. exists r, r0, r1. split_and!; try done; simpl in *; congruence.
Qed.

Lemma dependency_returns binPath ctx id tempDir depsDirTemp index name versionSpec
    depPaths objectFilesContainer w vars w' :
  compileProject_dependency env binPath ctx id tempDir depsDirTemp index name
    versionSpec (depPaths, objectFilesContainer) w = (Ret vars, w') ->
  exists version,
    selects index (name, versionSpec) version /\
    vars =
      ((depPaths ++ [dependency_dir depsDirTemp name version])%list,
       (objectFilesContainer ++
        dependency_objects tempDir depsDirTemp name version)%list).
Proof.
  unfold compileProject_dependency, selects. simpl.
  destruct (findLibrary index name) as [lib|] eqn:Hlib; [|msimpl; discriminate].
  destruct (resolveVersion (Library_Versions lib) versionSpec) as [version|] eqn:Hver;
    [|msimpl; discriminate].
  msimpl.
  destruct (compileProject_ensure env depsDirTemp name version w)
    as [[r|code] w1] eqn:Hensure; [|discriminate].
  apply ensure_returns in Hensure as [-> _].
  intros Hrun. exists version. split; [eauto|].
  unfold dependency_objects, dependency_dir, recognised.
  destruct (_ || _); msimpl.
  - match type of Hrun with
    | context [compileSourceInContainer env ?b ?c ?i ?inp ?out ?fl ?ext ?t ?w0] =>
        destruct (compileSource_shape env b c i inp out fl ext t w0)
          as (r & w2 & Hunit & _)
    end.
    rewrite Hunit in Hrun. destruct r; msimpl; [discriminate|].
    by injection Hrun as <- _.
  - injection Hrun as <- _. by rewrite app_nil_r.
Qed.

Lemma dependencies_returns binPath ctx id tempDir depsDirTemp index deps :
  forall depPaths objectFilesContainer w vars w',
    compileProject_dependencies env binPath ctx id tempDir depsDirTemp index deps
      (depPaths, objectFilesContainer) w = (Ret vars, w') ->
    exists versions,
      Forall2 (selects index) deps versions /\
      vars =
        ((depPaths ++
          zip_with (dependency_dir depsDirTemp) (map fst deps) versions)%list,
         (objectFilesContainer ++
          concat (zip_with (dependency_objects tempDir depsDirTemp)
                    (map fst deps) versions))%list).
Proof.
  induction deps as [|[name versionSpec] rest IH];
    intros depPaths objectFilesContainer w vars w';
    cbn [compileProject_dependencies].
  - msimpl. intros [= <- _]. exists []. split; [constructor|]. simpl.
    by rewrite !app_nil_r.
  - msimpl.
    destruct (compileProject_dependency env binPath ctx id tempDir depsDirTemp
                index name versionSpec (depPaths, objectFilesContainer) w)
      as [[vars1|code] w1] eqn:Hdep; [|discriminate].
    apply dependency_returns in Hdep as (version & Hsel & ->).
    intros (versions & Hall & ->)%IH.
    exists (version :: versions). split; [by constructor|]. simpl.
    by rewrite <- !app_assoc.
Qed.

(** A command of the build itself, after which a failure ends the build *)
Ltac must :=
  msimpl;
  lazymatch goal with
  | |- context [execInContainer env ?conn ?id ?cmd ?w] =>
      let r := fresh "r" in
      let out := fresh "out" in
      let exit := fresh "exit" in
      let err := fresh "err" in
      let w' := fresh "w" in
      let Hrun := fresh "Hrun" in
      let Hfail := fresh "Hfail" in
      let Hlog := fresh "Hlog" in
      let Hdef := fresh "Hdef" in
      let Hr := fresh "Hr" in
      destruct (execInContainer_run env conn id cmd w)
        as (r & out & exit & err & w' & Hrun & -> & Hfail & Hlog & Hdef);
      rewrite Hrun; clear Hrun; msimpl; rewrite Hfail; clear Hfail;
      destruct (outcome_failed r) eqn:Hr; msimpl; [discriminate|]
  end.

Lemma inSandbox_returns binPath ctx conn id tempDir depsDirTemp config index w w' :
  compileProject_inSandbox env binPath ctx conn id tempDir depsDirTemp config
    index w = (Ret tt, w') ->
  exists versions r1 r2 r3 r older,
    Forall2 (selects index) (Config_Dependencies config) versions /\
    outcome_failed r1 = false /\ outcome_failed r2 = false /\
    outcome_failed r3 = false /\ outcome_failed r = false /\
    w_log w' =
      EvPrint LSuccess ["Compilation complete"] ::
      EvPrint LSuccess ["Linking done"] ::
      EvExec conn id
        (("gcc" ::
          concat (zip_with (dependency_objects tempDir depsDirTemp)
                    (map fst (Config_Dependencies config)) versions)) ++
         ["/work/main.o"; "-o";
          "/work/bin/" +:+ Package_Name (Config_Package config)])%list r ::
      EvPrint LSuccess ["Compilation done"] ::
      EvExec ctx id ["compiler"; "/work/src/main.vira.pre"; "/work/main.o"] r3 ::
      EvPrint LSuccess ["PLSA done"] ::
      EvExec ctx id ["plsa"; "/work/src/main.vira.pre"] r2 ::
      EvPrint LSuccess ["Preprocessing done"] ::
      EvExec ctx id
        (("preprocessor" ::
          map (fun depPath => "-I" +:+ GoStrings.Replace1 depPath tempDir "/work")
            (zip_with (dependency_dir depsDirTemp)
               (map fst (Config_Dependencies config)) versions)) ++
         ["/work/src/main.vira"; "/work/src/main.vira.pre"])%list r1 ::
      EvPrint LSection ["Compiling source:"; "/work/src/main.vira"] :: older.
Proof.
  unfold compileProject_inSandbox.
  must. must.
  destruct (compileProject_dependencies env binPath ctx id tempDir depsDirTemp
              index (Config_Dependencies config) ([], []) w1)
    as [[vars|code] w2] eqn:Hdeps; [|discriminate].
  apply dependencies_returns in Hdeps as (versions & Hall & ->). msimpl.
  match goal with
  | |- context [compileSourceInContainer env ?b ?c ?i ?inp ?out ?fl ?ext ?t ?w0] =>
      destruct (compileSourceInContainer env b c i inp out fl ext t w0)
        as [[[e|]|code] w3] eqn:Hunit
  end; msimpl; try discriminate.
  apply compileSource_vira_returns in Hunit
    as (r1 & r2 & r3 & Hr1 & Hr2 & Hr3 & Hlog3 & _).
  must.
  match goal with
  | |- context [os_MkdirAll ?path ?w0] =>
      destruct (os_MkdirAll_returns path w0) as ([e|] & w5 & Hrun5 & Hlog5 & _)
  end; rewrite Hrun5; msimpl; [discriminate|].
  match goal with
  | |- context [copyFile ?src ?dst ?w0] =>
      destruct (copyFile_run src dst w0) as ([e|] & w6 & Hrun6 & Hlog6 & _)
  end; rewrite Hrun6; msimpl; [discriminate|].
  intros [= <-]. exists versions, r1, r2, r3, r4, (w_log w2).
  split_and!; try done. simpl in *.
  rewrite Hlog6, Hlog5, Hlog1, Hlog3. by rewrite <- !app_assoc.
Qed.

Lemma loadConfig_returns w config w' :
  loadConfig w = (Ret (config, None), w') ->
  exists data,
    w_fs w !! projectTOML = Some (File data) /\
    toml_Unmarshal data = (config, None).
Proof.
  unfold loadConfig, findProjectFile, os_Stat, os_ReadFile. msimpl.
  destruct (w_fs w !! projectTOML) as [[data|]|] eqn:Hfile; msimpl;
    try change (String.eqb projectTOML "") with false; msimpl;
    rewrite ?Hfile; msimpl; try discriminate.
  intros Hrun. exists data. split; [done|].
  destruct (toml_Unmarshal data) as [config' err]. by injection Hrun as -> ->.
Qed.

Lemma downloadIndex_returns w index w' :
  downloadIndex env w = (Ret (index, None), w') ->
  exists status body,
    env_http env w indexURL = HttpResponse status body None /\
    json_Unmarshal body = (index, None).
Proof.
  unfold downloadIndex, http_Get. msimpl.
  destruct (env_http env w indexURL) as [e|status body [e|]]; msimpl;
    try discriminate.
  intros Hrun. exists status, body. split; [done|].
  destruct (json_Unmarshal body) as [index' err]. by injection Hrun as -> ->.
Qed.

(** The next call of the goal, which returns without an error *)
Tactic Notation "step" constr(L) "as" simple_intropattern(res) :=
  let w' := fresh "w" in
  let Hrun := fresh "Hrun" in
  let Hlog := fresh "Hlog" in
  let Hdef := fresh "Hdef" in
  destruct L as (res & w' & Hrun & Hlog & Hdef);
  rewrite Hrun; simpl in Hlog; msimpl; try discriminate.

Ltac step_call :=
  msimpl;
  lazymatch goal with
  | |- context [os_MkdirAll ?p ?w] => step (os_MkdirAll_returns p w) as [?|]
  | |- context [os_MkdirTemp ?e ?p ?w] => step (os_MkdirTemp_run e p w) as [? [?|]]
  | |- context [findProjectFile ?w] => step (findProjectFile_run w) as ?
  | |- context [copyFile ?s ?d ?w] => step (copyFile_run s d w) as [?|]
  | |- context [copyDir ?e ?s ?d ?w] => step (copyDir_run e s d w) as [?|]
  end.

Lemma compileProject_returns binPath w w' :
  phase (w_log w) = Idle ->
  compileProject env binPath w = (Ret tt, w') ->
  exists data config status body index conn id tempDir w0 w1 w2,
    w_fs w !! projectTOML = Some (File data) /\
    toml_Unmarshal data = (config, None) /\
    env_http env w0 indexURL = HttpResponse status body None /\
    json_Unmarshal body = (index, None) /\
    compileProject_inSandbox env binPath ctxBackground conn id tempDir
      (filepath_Join [tempDir; depsDir]) config index w1 = (Ret tt, w2) /\
    phase (w_log w1) = Running id /\
    w_log w' = EvRemove id :: EvStop id :: w_log w2.
Proof.
  intros Hphase. unfold compileProject, with_defers. msimpl.
  match goal with
  | |- context [loadConfig ?w0] => step (loadConfig_run w0) as [config [e|]]
  end.
  apply loadConfig_returns in Hrun as (data & Hfile & Hconfig). simpl in Hfile.
  step_call. unfold defer at 1. msimpl.
  step_call. destruct (String.eqb _ ""); msimpl; [discriminate|].
  step_call. step_call. step_call.
  match goal with
  | |- context [downloadIndex env ?w0] =>
      step (downloadIndex_run env w0) as [index [e|]]
  end.
  match goal with
  | H : downloadIndex env _ = _ |- _ =>
      apply downloadIndex_returns in H as (status & body & Hhttp & Hindex)
  end.
  unfold bindings_NewConnection at 1.
  destruct (env_newConnection env _ _) as [e|]; msimpl; [discriminate|].
  unfold images_Pull at 1. msimpl.
  destruct (env_pull env _ _) as [e|]; msimpl; [discriminate|].
  unfold containers_CreateWithSpec at 1.
  destruct (env_create env _ _) as [id [e|]]; msimpl; [discriminate|].
  unfold containers_Start at 1. msimpl.
  destruct (env_start env _ _) as [e|]; msimpl; [discriminate|].
  unfold defer at 1. msimpl.
  match goal with
  | |- context [compileProject_inSandbox env ?b ?ctx ?conn ?i ?t ?d ?c ?ix ?wS] =>
      assert (Hstart : phase (w_log wS) = Running id)
        by (simpl; rewrite Hlog5, Hlog4, Hlog3, Hlog2, Hlog1, Hlog0, Hlog; simpl;
            rewrite Hphase; simpl; by rewrite String.eqb_refl);
      pose proof (inSandbox_protocol env b ctx conn i t d c ix wS Hstart) as Hin;
      destruct (compileProject_inSandbox env b ctx conn i t d c ix wS)
        as [[[]|code] wE] eqn:Hsandbox
  end; [|discriminate].
  destruct Hin as [_ Hdefers]. simpl in Hdefers.
  rewrite Hdefers, Hdef5, Hdef4, Hdef3, Hdef2, Hdef1, Hdef0, Hdef.
  unfold run_all_deferred, run_deferred, containers_Stop, containers_Remove,
    os_RemoveAll.
  msimpl. intros [= <-].
  eexists data, config, status, body, index, _, id, _, _, _, wE.
  split_and!; [done | done | exact Hhttp | done | exact Hsandbox | exact Hstart | done].
Qed.

End Composition.

(** X15: a unit of the language (extension .vira) returns no error only
    after exactly three commands have run in the container and succeeded,
    in this order: the preprocessor on the input with the include flags,
    writing input.pre; plsa on input.pre; the compiler from input.pre to
    the output. Each success is reported before the next stage starts. *)
Theorem language_unit_runs_three_stages {platform : GoPlatform} (env : Env)
    (binPath : string) (conn : Context) (id input output : string)
    (includeFlags : list string) (tempDir : string) (w w' : World) :
  compileSourceInContainer env binPath conn id input output includeFlags
    ".vira" tempDir w = (Ret None, w') ->
  exists r1 r2 r3,
    outcome_failed r1 = false /\ outcome_failed r2 = false /\
    outcome_failed r3 = false /\
    w_log w' =
      EvPrint LSuccess ["Compilation done"] ::
      EvExec conn id ["compiler"; input +:+ ".pre"; output] r3 ::
      EvPrint LSuccess ["PLSA done"] ::
      EvExec conn id ["plsa"; input +:+ ".pre"] r2 ::
      EvPrint LSuccess ["Preprocessing done"] ::
      EvExec conn id
        (("preprocessor" :: includeFlags) ++ [input; input +:+ ".pre"])%list r1 ::
      EvPrint LSection ["Compiling source:"; input] :: w_log w.
Proof.
  intros Hrun.
  apply compileSource_vira_returns in Hrun
    as (r1 & r2 & r3 & Hr1 & Hr2 & Hr3 & Hlog & _).
  exists r1, r2, r3. by split_and!.
Qed.

Lemma language_unit_runs_three_stages_witness :
  let run :=
    @compileSourceInContainer (Build.platform Build.plain) (Build.env Build.plain)
      "/usr/lib/vira-lang/bin" ctxBackground "c0ffee" "/work/src/main.vira"
      "/work/main.o" ["-I/work/.virus_deps/mathlib/1.0.0"] ".vira" Build.tempDir
      Build.start in
  exists r1 r2 r3,
    outcome_failed r1 = false /\ outcome_failed r2 = false /\
    outcome_failed r3 = false /\
    w_log (snd run) =
      [EvPrint LSuccess ["Compilation done"];
       EvExec ctxBackground "c0ffee"
         ["compiler"; "/work/src/main.vira" +:+ ".pre"; "/work/main.o"] r3;
       EvPrint LSuccess ["PLSA done"];
       EvExec ctxBackground "c0ffee" ["plsa"; "/work/src/main.vira" +:+ ".pre"] r2;
       EvPrint LSuccess ["Preprocessing done"];
       EvExec ctxBackground "c0ffee"
         ["preprocessor"; "-I/work/.virus_deps/mathlib/1.0.0";
          "/work/src/main.vira"; "/work/src/main.vira" +:+ ".pre"] r1;
       EvPrint LSection ["Compiling source:"; "/work/src/main.vira"]].
Proof.
  intros run.
  apply (@language_unit_runs_three_stages (Build.platform Build.plain)
           (Build.env Build.plain) "/usr/lib/vira-lang/bin" ctxBackground "c0ffee"
           "/work/src/main.vira" "/work/main.o"
           ["-I/work/.virus_deps/mathlib/1.0.0"] Build.tempDir Build.start (snd run)).
  vm_compute. reflexivity.
Defined.

(** X16: when the loop over the dependencies returns, every dependency has
    been resolved to a version by [findLibrary] and [resolveVersion]; the
    include directories have grown by one directory for each dependency, in
    the order of the loop and also for artifacts that are not compiled; the
    object files have grown by lib.o of each dependency whose artifact has
    a recognised extension, in the same order, at the container path of
    its directory. *)
Theorem dependencies_resolved_in_order {platform : GoPlatform} (env : Env)
    (binPath : string) (ctx : Context) (id tempDir depsDirTemp : string)
    (index : LibraryIndex) (deps : list (string * string))
    (depPaths objectFilesContainer : list string) (w : World)
    (vars : list string * list string) (w' : World) :
  compileProject_dependencies env binPath ctx id tempDir depsDirTemp index deps
    (depPaths, objectFilesContainer) w = (Ret vars, w') ->
  exists versions,
    Forall2 (selects index) deps versions /\
    fst vars =
      (depPaths ++
       zip_with (dependency_dir depsDirTemp) (map fst deps) versions)%list /\
    snd vars =
      (objectFilesContainer ++
       concat (zip_with (dependency_objects tempDir depsDirTemp)
                 (map fst deps) versions))%list.
Proof.
  intros Hrun.
  apply dependencies_returns in Hrun as (versions & Hall & ->).
  exists versions. by split_and!.
Qed.

Lemma dependencies_resolved_in_order_witness :
  let platform := Build.platform Build.served in
  let run :=
    @compileProject_dependencies platform (Build.env Build.served)
      "/usr/lib/vira-lang/bin" ctxBackground "c0ffee" Build.tempDir
      "/tmp/virus-build-1/.virus_deps" (Build.in_catalog Build.served)
      [("mathlib", "*")] ([], []) Build.start in
  exists versions,
    Forall2 (selects (Build.in_catalog Build.served)) [("mathlib", "*")] versions /\
    ["/tmp/virus-build-1/.virus_deps/mathlib/1.0.0"] =
      ([] ++
       zip_with (@dependency_dir platform "/tmp/virus-build-1/.virus_deps")
         (map fst [("mathlib", "*")]) versions)%list /\
    ["/work/.virus_deps/mathlib/1.0.0/lib.o"] =
      ([] ++
       concat (zip_with
                 (@dependency_objects platform Build.tempDir
                    "/tmp/virus-build-1/.virus_deps")
                 (map fst [("mathlib", "*")]) versions))%list.
Proof.
  intros platform run.
  apply (@dependencies_resolved_in_order platform (Build.env Build.served)
           "/usr/lib/vira-lang/bin" ctxBackground "c0ffee" Build.tempDir
           "/tmp/virus-build-1/.virus_deps" (Build.in_catalog Build.served)
           [("mathlib", "*")] [] [] Build.start
           (["/tmp/virus-build-1/.virus_deps/mathlib/1.0.0"],
            ["/work/.virus_deps/mathlib/1.0.0/lib.o"]) (snd run)).
  vm_compute. reflexivity.
Defined.

(** X17: when the sandboxed build returns, the configuration was decoded
    from Project.toml and every dependency was resolved in the downloaded
    catalog. The main source /work/src/main.vira went through the three
    stages with one -I flag for the directory of each dependency, then gcc
    linked lib.o of every dependency with a recognised artifact, in the
    order of the loop, followed by /work/main.o, into /work/bin/<package
    name>; all four commands succeeded, both results were reported, and
    the session was stopped and removed last. *)
Theorem returning_build_links_all_objects {platform : GoPlatform} (env : Env)
    (binPath : string) (w w' : World) :
  w_log w = [] ->
  compileProject env binPath w = (Ret tt, w') ->
  exists data config body index versions conn id tempDir r1 r2 r3 r older,
    w_fs w !! projectTOML = Some (File data) /\
    toml_Unmarshal data = (config, None) /\
    json_Unmarshal body = (index, None) /\
    Forall2 (selects index) (Config_Dependencies config) versions /\
    outcome_failed r1 = false /\ outcome_failed r2 = false /\
    outcome_failed r3 = false /\ outcome_failed r = false /\
    let depsDirTemp := filepath_Join [tempDir; depsDir] in
    let names := map fst (Config_Dependencies config) in
    w_log w' =
      EvRemove id :: EvStop id ::
      EvPrint LSuccess ["Compilation complete"] ::
      EvPrint LSuccess ["Linking done"] ::
      EvExec conn id
        (("gcc" ::
          concat (zip_with (dependency_objects tempDir depsDirTemp) names versions)) ++
         ["/work/main.o"; "-o";
          "/work/bin/" +:+ Package_Name (Config_Package config)])%list r ::
      EvPrint LSuccess ["Compilation done"] ::
      EvExec ctxBackground id
        ["compiler"; "/work/src/main.vira.pre"; "/work/main.o"] r3 ::
      EvPrint LSuccess ["PLSA done"] ::
      EvExec ctxBackground id ["plsa"; "/work/src/main.vira.pre"] r2 ::
      EvPrint LSuccess ["Preprocessing done"] ::
      EvExec ctxBackground id
        (("preprocessor" ::
          map (fun depPath => "-I" +:+ GoStrings.Replace1 depPath tempDir "/work")
            (zip_with (dependency_dir depsDirTemp) names versions)) ++
         ["/work/src/main.vira"; "/work/src/main.vira.pre"])%list r1 ::
      EvPrint LSection ["Compiling source:"; "/work/src/main.vira"] :: older.
Proof.
  intros Hstart Hrun.
  apply compileProject_returns in Hrun
    as (data & config & status & body & index & conn & id & tempDir & w0 & w1 & w2 &
        Hfile & Hconfig & _ & Hindex & Hsandbox & _ & Hlog);
    [|by rewrite Hstart].
  apply inSandbox_returns in Hsandbox
    as (versions & r1 & r2 & r3 & r & older & Hall & Hr1 & Hr2 & Hr3 & Hr & Hlog2).
  exists data, config, body, index, versions, conn, id, tempDir, r1, r2, r3, r, older.
  split_and!; try done. simpl. by rewrite Hlog, Hlog2.
Qed.

Lemma returning_build_links_all_objects_witness :
  let platform := Build.platform Build.served in
  let run :=
    @compileProject platform (Build.env Build.served) "/usr/lib/vira-lang/bin"
      Build.start in
  exists data config body index versions conn id tempDir r1 r2 r3 r older,
    w_fs Build.start !! projectTOML = Some (File data) /\
    @toml_Unmarshal platform data = (config, None) /\
    @json_Unmarshal platform body = (index, None) /\
    Forall2 (selects index) (Config_Dependencies config) versions /\
    outcome_failed r1 = false /\ outcome_failed r2 = false /\
    outcome_failed r3 = false /\ outcome_failed r = false /\
    let depsDirTemp := @filepath_Join platform [tempDir; depsDir] in
    let names := map fst (Config_Dependencies config) in
    w_log (snd run) =
      EvRemove id :: EvStop id ::
      EvPrint LSuccess ["Compilation complete"] ::
      EvPrint LSuccess ["Linking done"] ::
      EvExec conn id
        (("gcc" ::
          concat (zip_with (@dependency_objects platform tempDir depsDirTemp)
                    names versions)) ++
         ["/work/main.o"; "-o";
          "/work/bin/" +:+ Package_Name (Config_Package config)])%list r ::
      EvPrint LSuccess ["Compilation done"] ::
      EvExec ctxBackground id
        ["compiler"; "/work/src/main.vira.pre"; "/work/main.o"] r3 ::
      EvPrint LSuccess ["PLSA done"] ::
      EvExec ctxBackground id ["plsa"; "/work/src/main.vira.pre"] r2 ::
      EvPrint LSuccess ["Preprocessing done"] ::
      EvExec ctxBackground id
        (("preprocessor" ::
          map (fun depPath => "-I" +:+ GoStrings.Replace1 depPath tempDir "/work")
            (zip_with (@dependency_dir platform depsDirTemp) names versions)) ++
         ["/work/src/main.vira"; "/work/src/main.vira.pre"])%list r1 ::
      EvPrint LSection ["Compiling source:"; "/work/src/main.vira"] :: older.
Proof.
  intros platform run.
  apply (@returning_build_links_all_objects platform (Build.env Build.served)
           "/usr/lib/vira-lang/bin" Build.start (snd run)).
  - reflexivity.
  - vm_compute. reflexivity.
Defined.
